(** * TuteDude backend: order tracking and chat handlers

    A shallow embedding of [backend/main.py], [backend/order_tracking.py]
    and [backend/chat.py].  The handlers are FastAPI endpoints that talk to
    a Supabase datastore and to an HTTP translation provider.  They are
    embedded as computations in a small monad that threads the datastore,
    records every gateway call that is issued, and carries the exception
    that aborts a request (an [HTTPException] raised by the handler, a
    Python [ValueError], or FastAPI's own parameter validation). *)

From Stdlib Require Import ZArith String Ascii List.
From stdpp Require Import base tactics option list gmap strings sorting.

Local Open Scope Z_scope.
Local Open Scope string_scope.

(** ** Data model *)

(** The verified JWT payload.  The handlers read [user['sub']] directly and
    [user.get('role')], so the role may be missing. *)
Record User := mkUser {
  sub : string;
  role : option string
}.

(** A row of table [orders], keyed by its primary key [id] in the store.
    [status] is a [text] column: nothing restricts it to the four lifecycle
    names.  [status_timestamps] is a nullable [jsonb] object. *)
Record OrderRow := mkOrderRow {
  buyer_id : string;
  seller_id : string;
  status : string;
  status_timestamps : option (gmap string string);
  created_at : string
}.

(** A row of table [order_items]; [price] is kept as the store returns it. *)
Record OrderItem := mkOrderItem {
  item_id : Z;
  item_order_id : Z;
  item_name : string;
  quantity : Z;
  price : string
}.

(** An element of the list returned by [get_orders]: the row, its key and
    the attached items. *)
Record Order := mkOrder {
  order_id : Z;
  order_row : OrderRow;
  items : list OrderItem
}.

(** A row of table [profiles]; [preferred_language] is a nullable column. *)
Record Profile := mkProfile {
  preferred_language : option string
}.

(** A row of table [messages].  [msg_id] and [timestamp] are assigned by the
    store on insertion. *)
Record Message := mkMessage {
  msg_id : Z;
  sender_id : string;
  receiver_id : string;
  message : string;
  translated_message : option string;
  timestamp : Z
}.

Record Supabase := mkSupabase {
  profiles : gmap string Profile;
  messages : list Message;
  orders : gmap Z OrderRow;
  order_items : list OrderItem
}.

(** ** Gateway calls *)

Inductive OrderCol := col_buyer_id | col_seller_id.

(** The filters the handlers build on table [messages]. *)
Inductive MsgCol := col_sender_id | col_receiver_id.

Inductive Filter :=
  | f_eq (c : MsgCol) (v : string)
  | f_and (f g : Filter)
  | f_or (f g : Filter).

(** The form fields posted to the translation provider. *)
Record TranslateParams := mkParams {
  q : string;
  target : option string;
  key : string;
  source : option string
}.

Record HttpResponse := mkHttpResponse {
  status_code : Z;
  translatedText : string
}.

Inductive Event :=
  | ev_select_order (id : Z)
  | ev_select_orders (c : OrderCol) (user_id : string)
  | ev_select_items (ids : list Z)
  | ev_update_order (id : Z) (new_status : string) (ts : gmap string string)
  | ev_select_profile (id : string)
  | ev_insert_message (sender receiver text : string) (translated : option string)
  | ev_select_messages (f : Filter) (first last : Z)
  | ev_http_post (p : TranslateParams).

(** What a request observes of the outside world: the clock, the answer of
    the translation provider, and whether the datastore response that the
    handler inspects carries a truthy [.error]. *)
Record Env := mkEnv {
  utcnow_isoformat : string;
  store_now : Z;
  store_error : bool;
  requests_post : TranslateParams -> HttpResponse;
  GOOGLE_TRANSLATE_API_KEY : string
}.

Record World := mkWorld {
  db : Supabase;
  calls : list Event
}.

(** ** The handler monad *)

Inductive Exn :=
  | HTTPException (code : Z) (detail : string)
  | ValueError (what : string)
  | RequestValidationError (param : string).

Definition M (A : Type) : Type := Env -> World -> (Exn + A) * World.

Definition ret {A} (a : A) : M A := fun _ w => (inr a, w).

Definition bind {A B} (m : M A) (k : A -> M B) : M B :=
  fun e w =>
    match m e w with
    | (inl x, w') => (inl x, w')
    | (inr a, w') => k a e w'
    end.

Definition raise {A} (x : Exn) : M A := fun _ w => (inl x, w).

Definition ask : M Env := fun e w => (inr e, w).

Definition get_db : M Supabase := fun _ w => (inr (db w), w).

Definition put_db (d : Supabase) : M unit :=
  fun _ w => (inr tt, mkWorld d (calls w)).

Definition emit (ev : Event) : M unit :=
  fun _ w => (inr tt, mkWorld (db w) (calls w ++ [ev])).

Notation "'let*' x ':=' m 'in' k" := (bind m (fun x => k))
  (at level 10, x name, m at level 100, k at level 200, only parsing).

(** ** Python helpers *)

(** [l.index(x)]: the first position of [x], or [ValueError]. *)
Fixpoint index_from (l : list string) (x : string) (i : Z) : option Z :=
  match l with
  | [] => None
  | y :: l' => if String.eqb x y then Some i else index_from l' x (i + 1)
  end.

(** [repr(s)] of a Python string, a character of the model standing for
    the code point of its number: single quotes unless the string has a
    single quote and no double quote; the quote in use and the backslash
    are escaped; tab, newline and carriage return get their letter; every
    other non-printable code point is written [\xhh]. *)
Definition hex_digit (n : nat) : ascii :=
  nth n ["0"; "1"; "2"; "3"; "4"; "5"; "6"; "7"; "8"; "9";
         "a"; "b"; "c"; "d"; "e"; "f"]%char "0"%char.

Definition printable (c : ascii) : bool :=
  let n := nat_of_ascii c in
  ((32 <=? n) && (n <? 127))%nat || ((161 <=? n) && negb (n =? 173))%nat.

Definition escape_char (quote c : ascii) : string :=
  if Ascii.eqb c quote || Ascii.eqb c "\"%char then String "\" (String c "")
  else if Ascii.eqb c "009"%char then "\t"
  else if Ascii.eqb c "010"%char then "\n"
  else if Ascii.eqb c "013"%char then "\r"
  else if printable c then String c ""
  else "\x" ++ String (hex_digit (nat_of_ascii c / 16))
                 (String (hex_digit (nat_of_ascii c mod 16)) "").

Fixpoint escape (quote : ascii) (s : string) : string :=
  match s with
  | EmptyString => ""
  | String c s' => escape_char quote c ++ escape quote s'
  end.

Definition occurs (c : ascii) (s : string) : bool :=
  existsb (Ascii.eqb c) (list_ascii_of_string s).

Definition py_repr (s : string) : string :=
  let quote :=
    if occurs "'"%char s && negb (occurs "034"%char s) then "034"%char
    else "'"%char in
  String quote (escape quote s ++ String quote "").

Definition index (l : list string) (x : string) : M Z :=
  match index_from l x 0 with
  | Some i => ret i
  | None => raise (ValueError (py_repr x ++ " is not in list"))
  end.

(** [x in l] *)
Definition contains (l : list string) (x : string) : bool :=
  existsb (String.eqb x) l.

(** ** Datastore gateway *)

(** What [.execute()] returns, as far as the handlers read it: [.data] and
    the truthiness of [.error]. *)
Record Response (A : Type) := mkResponse {
  data : A;
  error : bool
}.
Arguments mkResponse {A} _ _.
Arguments data {A} _.
Arguments error {A} _.

(** [table('orders').select('*').eq('id', id).single().execute().data],
    which the handler expects to be falsy when no row has that id. *)
Definition select_order (id : Z) : M (option OrderRow) :=
  let* _ := emit (ev_select_order id) in
  let* d := get_db in
  ret (orders d !! id).

Definition set_orders (d : Supabase) (o : gmap Z OrderRow) : Supabase :=
  mkSupabase (profiles d) (messages d) o (order_items d).

Definition set_status (new_status : string) (ts : gmap string string)
    (o : OrderRow) : OrderRow :=
  mkOrderRow (buyer_id o) (seller_id o) new_status (Some ts) (created_at o).

(** [table('orders').update({'status': .., 'status_timestamps': ..})
    .eq('id', id).execute()].  A write that reports an error leaves the
    table as it was. *)
Definition update_order (id : Z) (new_status : string)
    (ts : gmap string string) : M (Response unit) :=
  let* _ := emit (ev_update_order id new_status ts) in
  let* e := ask in
  if store_error e then ret (mkResponse tt true)
  else
    let* d := get_db in
    let* _ := put_db (set_orders d
                (alter (set_status new_status ts) id (orders d))) in
    ret (mkResponse tt false).

Definition order_col (c : OrderCol) (o : OrderRow) : string :=
  match c with
  | col_buyer_id => buyer_id o
  | col_seller_id => seller_id o
  end.

(** [table('orders').select('*').eq(c, user_id).execute()] *)
Definition select_orders (c : OrderCol) (user_id : string)
    : M (Response (list (Z * OrderRow))) :=
  let* _ := emit (ev_select_orders c user_id) in
  let* d := get_db in
  ret (mkResponse
         (filter (fun p => order_col c p.2 = user_id) (map_to_list (orders d)))
         false).

(** [table('order_items').select('*').in_('order_id', ids).execute()] *)
Definition select_items (ids : list Z) : M (Response (list OrderItem)) :=
  let* _ := emit (ev_select_items ids) in
  let* d := get_db in
  ret (mkResponse (filter (fun it => item_order_id it ∈ ids) (order_items d))
         false).

(** The body returned by a successful status update. *)
Record StatusUpdated := mkStatusUpdated {
  su_message : string;
  su_order_id : Z;
  su_new_status : string
}.

Definition role_is (user : User) (r : string) : bool :=
  match role user with
  | Some r' => String.eqb r' r
  | None => false
  end.

(** [items_by_order.setdefault(item['order_id'], []).append(item)] over the
    fetched items, in the order the store returned them. *)
Definition add_item (acc : gmap Z (list OrderItem)) (item : OrderItem)
    : gmap Z (list OrderItem) :=
  <[item_order_id item :=
      (default [] (acc !! item_order_id item) ++ [item])%list]> acc.

Definition group_items (its : list OrderItem) : gmap Z (list OrderItem) :=
  fold_left add_item its ∅.

(** ** backend/main.py *)

Module Main.

Definition ORDER_STATUSES : list string :=
  ["Placed"; "Accepted"; "Out for Delivery"; "Delivered"].

Definition get_orders (user_id : string) (user : User) : M (list Order) :=
  let role := role user in
  if negb (String.eqb (sub user) user_id) && negb (role_is user "seller") then
    raise (HTTPException 403 "Forbidden")
  else
    let* query :=
      if role_is user "buyer" then ret (select_orders col_buyer_id user_id)
      else if role_is user "seller" then
        ret (select_orders col_seller_id user_id)
      else raise (HTTPException 403 "Invalid role") in
    let* orders_resp := query in
    match data orders_resp with
    | [] => ret []
    | orders =>
      let order_ids := map fst orders in
      let* items_resp := select_items order_ids in
      let items_by_order := group_items (data items_resp) in
      ret (map (fun o => mkOrder o.1 o.2 (default [] (items_by_order !! o.1)))
             orders)
    end.

Definition update_order_status (order_id : Z) (new_status : string)
    (user : User) : M StatusUpdated :=
  if negb (role_is user "seller") then
    raise (HTTPException 403 "Only sellers can update order status")
  else
    let* order := select_order order_id in
    match order with
    | None => raise (HTTPException 404 "Order not found")
    | Some order =>
      if negb (String.eqb (seller_id order) (sub user)) then
        raise (HTTPException 403 "You can only update your own orders")
      else
        let current_status := status order in
        if negb (contains ORDER_STATUSES new_status) then
          raise (HTTPException 400 "Invalid status")
        else
          let* i_new := index ORDER_STATUSES new_status in
          let* i_cur := index ORDER_STATUSES current_status in
          if negb (i_new =? i_cur + 1)%Z then
            raise (HTTPException 400 "Invalid status transition")
          else
            let status_timestamps := default ∅ (status_timestamps order) in
            let* e := ask in
            let status_timestamps :=
              <[new_status := utcnow_isoformat e]> status_timestamps in
            let* update_resp :=
              update_order order_id new_status status_timestamps in
            if error update_resp then
              raise (HTTPException 500 "Failed to update order status")
            else
              ret (mkStatusUpdated "Order status updated" order_id new_status)
    end.

End Main.

(** ** backend/order_tracking.py

    The router module carries its own copy of the status list and of both
    order handlers. *)

Module OrderTracking.


Definition ORDER_STATUSES : list string :=
  ["Placed"; "Accepted"; "Out for Delivery"; "Delivered"].

Definition get_orders (user_id : string) (user : User) : M (list Order) :=
  let role := role user in
  if negb (String.eqb (sub user) user_id) && negb (role_is user "seller") then
    raise (HTTPException 403 "Forbidden")
  else
    let* query :=
      if role_is user "buyer" then ret (select_orders col_buyer_id user_id)
      else if role_is user "seller" then
        ret (select_orders col_seller_id user_id)
      else raise (HTTPException 403 "Invalid role") in
    let* orders_resp := query in
    match data orders_resp with
    | [] => ret []
    | orders =>
      let order_ids := map fst orders in
      let* items_resp := select_items order_ids in
      let items_by_order := group_items (data items_resp) in
      ret (map (fun o => mkOrder o.1 o.2 (default [] (items_by_order !! o.1)))
             orders)
    end.

Definition update_order_status (order_id : Z) (new_status : string)
    (user : User) : M StatusUpdated :=
  if negb (role_is user "seller") then
    raise (HTTPException 403 "Only sellers can update order status")
  else
    let* order := select_order order_id in
    match order with
    | None => raise (HTTPException 404 "Order not found")
    | Some order =>
      if negb (String.eqb (seller_id order) (sub user)) then
        raise (HTTPException 403 "You can only update your own orders")
      else
        let current_status := status order in
        if negb (contains ORDER_STATUSES new_status) then
          raise (HTTPException 400 "Invalid status")
        else
          let* i_new := index ORDER_STATUSES new_status in
          let* i_cur := index ORDER_STATUSES current_status in
          if negb (i_new =? i_cur + 1)%Z then
            raise (HTTPException 400 "Invalid status transition")
          else
            let status_timestamps := default ∅ (status_timestamps order) in
            let* e := ask in
            let status_timestamps :=
              <[new_status := utcnow_isoformat e]> status_timestamps in
            let* update_resp :=
              update_order order_id new_status status_timestamps in
            if error update_resp then
              raise (HTTPException 500 "Failed to update order status")
            else
              ret (mkStatusUpdated "Order status updated" order_id new_status)
    end.

End OrderTracking.

(** ** backend/chat.py *)

(** [s.split(sep)] for a one-character separator: every occurrence of the
    separator cuts, so the result is never empty. *)
Fixpoint split (sep : ascii) (s : string) : list string :=
  match s with
  | EmptyString => [EmptyString]
  | String c rest =>
    if Ascii.eqb c sep then EmptyString :: split sep rest
    else
      match split sep rest with
      | [] => [String c EmptyString]
      | h :: t => String c h :: t
      end
  end.

(** Truthiness of an optional string: [None] and the empty string are
    falsy. *)
Definition truthy (s : option string) : bool :=
  match s with
  | Some s => negb (String.eqb s "")
  | None => false
  end.

(** [requests.post(url, data=params)] *)
Definition post (params : TranslateParams) : M HttpResponse :=
  let* _ := emit (ev_http_post params) in
  let* e := ask in
  ret (requests_post e params).

(** [table('profiles').select('preferred_language').eq('id', id)
    .single().execute().data] *)
Definition select_profile (id : string) : M (option Profile) :=
  let* _ := emit (ev_select_profile id) in
  let* d := get_db in
  ret (profiles d !! id).

Definition next_msg_id (l : list Message) : Z :=
  1 + foldr (fun m acc => Z.max (msg_id m) acc) 0 l.

Definition add_message (d : Supabase) (m : Message) : Supabase :=
  mkSupabase (profiles d) (messages d ++ [m]) (orders d) (order_items d).

(** [table('messages').insert({...}).execute()]: the store assigns the id
    and the timestamp.  An insert that reports an error stores nothing. *)
Definition insert_message (sender receiver text : string)
    (translated : option string) : M (Response unit) :=
  let* _ := emit (ev_insert_message sender receiver text translated) in
  let* e := ask in
  if store_error e then ret (mkResponse tt true)
  else
    let* d := get_db in
    let* _ := put_db (add_message d
                (mkMessage (next_msg_id (messages d)) sender receiver text
                   translated (store_now e))) in
    ret (mkResponse tt false).

Definition msg_col (c : MsgCol) (m : Message) : string :=
  match c with
  | col_sender_id => sender_id m
  | col_receiver_id => receiver_id m
  end.

Fixpoint eval_filter (f : Filter) (m : Message) : bool :=
  match f with
  | f_eq c v => String.eqb (msg_col c m) v
  | f_and f g => eval_filter f m && eval_filter g m
  | f_or f g => eval_filter f m || eval_filter g m
  end.

Definition ts_le (m1 m2 : Message) : Prop := (timestamp m1 <= timestamp m2)%Z.

#[global] Instance ts_le_dec : RelDecision ts_le.
Proof. intros m1 m2. unfold ts_le. apply _. Defined.

(** [.range(first, last)]: both ends are inclusive. *)
Definition range {A} (first last : Z) (l : list A) : list A :=
  take (Z.to_nat (last - first + 1)) (drop (Z.to_nat first) l).

(** [table('messages').select('*').or_(f).order('timestamp', desc=False)
    .range(first, last).execute()] *)
Definition select_messages (f : Filter) (first last : Z)
    : M (Response (list Message)) :=
  let* _ := emit (ev_select_messages f first last) in
  let* e := ask in
  if store_error e then ret (mkResponse [] true)
  else
    let* d := get_db in
    ret (mkResponse
           (range first last
              (merge_sort ts_le (filter (fun m => eval_filter f m = true)
                                   (messages d))))
           false).

(** FastAPI's [Query(default, ge=.., le=..)] for an integer parameter. *)
Definition Query (name : string) (default : Z) (ge : Z) (le : option Z)
    (given : option Z) : M Z :=
  match given with
  | None => ret default
  | Some v =>
    if (v <? ge)%Z then raise (RequestValidationError name)
    else
      match le with
      | Some hi => if (hi <? v)%Z then raise (RequestValidationError name)
                   else ret v
      | None => ret v
      end
  end.

Module Chat.

Definition translate_text (text : string) (target_lang : option string)
    (source_lang : option string) : M (option string) :=
  let* e := ask in
  let params :=
    mkParams text target_lang (GOOGLE_TRANSLATE_API_KEY e)
      (if truthy source_lang then source_lang else None) in
  let* resp := post params in
  if (status_code resp =? 200)%Z then ret (Some (translatedText resp))
  else ret None.

(** [profile.get('preferred_language', 'en') if profile else 'en']: the
    selected row always has the key, so a NULL column is read as [None]. *)
Definition lang_of (profile : option Profile) : option string :=
  match profile with
  | Some p => preferred_language p
  | None => Some "en"
  end.

Definition send_message (req_receiver_id req_message : string) (user : User)
    : M string :=
  let sender_id := sub user in
  let receiver_id := req_receiver_id in
  let message := req_message in
  let* sender_profile := select_profile sender_id in
  let* receiver_profile := select_profile receiver_id in
  let sender_lang := lang_of sender_profile in
  let receiver_lang := lang_of receiver_profile in
  let* translated_message :=
    if bool_decide (sender_lang <> receiver_lang) then
      translate_text message receiver_lang sender_lang
    else ret None in
  let* insert_resp :=
    insert_message sender_id receiver_id message translated_message in
  if error insert_resp then
    raise (HTTPException 500 "Failed to send message")
  else ret "Message sent".

Definition conversation_filter (u0 u1 : string) : Filter :=
  f_or (f_and (f_eq col_sender_id u0) (f_eq col_receiver_id u1))
       (f_and (f_eq col_sender_id u1) (f_eq col_receiver_id u0)).

Definition get_messages (conversation_id : string) (user : User)
    (limit offset : option Z) : M (list Message) :=
  let* limit := Query "limit" 50 1 (Some 100) limit in
  let* offset := Query "offset" 0 0 None offset in
  let user_ids := split "_" conversation_id in
  if negb (length user_ids =? 2)%nat then
    raise (HTTPException 400 "Invalid conversation_id")
  else if negb (contains user_ids (sub user)) then
    raise (HTTPException 403 "Forbidden")
  else
    let* resp :=
      select_messages
        (conversation_filter (nth 0 user_ids "") (nth 1 user_ids ""))
        offset (offset + limit - 1) in
    if error resp then
      raise (HTTPException 500 "Failed to fetch messages")
    else ret (data resp).

End Chat.

(** ** The two mount points of the order handlers *)

Inductive Mount := main_py | order_tracking_py.

Definition get_orders_at (m : Mount) :=
  match m with
  | main_py => Main.get_orders
  | order_tracking_py => OrderTracking.get_orders
  end.

Definition ORDER_STATUSES_at (m : Mount) : list string :=
  match m with
  | main_py => Main.ORDER_STATUSES
  | order_tracking_py => OrderTracking.ORDER_STATUSES
  end.

Definition update_order_status_at (m : Mount) :=
  match m with
  | main_py => Main.update_order_status
  | order_tracking_py => OrderTracking.update_order_status
  end.

(** ** Requests and their effect on the world *)

Inductive Request :=
  | req_get_orders (m : Mount) (user_id : string) (user : User)
  | req_update_order_status (m : Mount) (order_id : Z) (new_status : string)
      (user : User)
  | req_send_message (receiver_id message : string) (user : User)
  | req_get_messages (conversation_id : string) (user : User)
      (limit offset : option Z).

Definition serve (r : Request) (e : Env) (w : World) : World :=
  match r with
  | req_get_orders m user_id user => (get_orders_at m user_id user e w).2
  | req_update_order_status m order_id new_status user =>
    (update_order_status_at m order_id new_status user e w).2
  | req_send_message receiver_id message user =>
    (Chat.send_message receiver_id message user e w).2
  | req_get_messages conversation_id user limit offset =>
    (Chat.get_messages conversation_id user limit offset e w).2
  end.

Definition serve_all (rs : list (Request * Env)) (w : World) : World :=
  fold_left (fun w re => serve re.1 re.2 w) rs w.

(** The position of a status name in the lifecycle, when it has one. *)
Definition status_index (s : string) : option Z :=
  index_from Main.ORDER_STATUSES s 0.

Definition BadRequest (detail : string) : Exn := HTTPException 400 detail.
Definition Forbidden (detail : string) : Exn := HTTPException 403 detail.
Definition NotFound (detail : string) : Exn := HTTPException 404 detail.

(** ** Vocabulary of the statements *)

(** The world after the order lookup of a status update. *)
Definition after_lookup (w : World) (order_id : Z) : World :=
  mkWorld (db w) (calls w ++ [ev_select_order order_id]).

(** The timestamps a status update writes: the stored ones, or an empty
    object, with [new_status] set to the current time. *)
Definition stamped (e : Env) (o : OrderRow) (new_status : string)
    : gmap string string :=
  <[new_status := utcnow_isoformat e]> (default ∅ (status_timestamps o)).

(** The world after an accepted status update. *)
Definition after_update (e : Env) (w : World) (order_id : Z) (o : OrderRow)
    (new_status : string) : World :=
  mkWorld
    (set_orders (db w)
       (alter (set_status new_status (stamped e o new_status)) order_id
          (orders (db w))))
    ((calls w ++ [ev_select_order order_id])
       ++ [ev_update_order order_id new_status (stamped e o new_status)]).

(** The world after an accepted update whose write reported an error. *)
Definition after_failed_update (e : Env) (w : World) (order_id : Z)
    (o : OrderRow) (new_status : string) : World :=
  mkWorld (db w)
    ((calls w ++ [ev_select_order order_id])
       ++ [ev_update_order order_id new_status (stamped e o new_status)]).

(** One order, number 7, sold by "s1" to "b1". *)
Module Sample.

Definition env (err : bool) : Env :=
  mkEnv "2024-05-01T10:00:00" 1714557600 err
    (fun _ => mkHttpResponse 200 "hola") "k".

Definition seller : User := mkUser "s1" (Some "seller").
Definition other_seller : User := mkUser "s2" (Some "seller").
Definition buyer : User := mkUser "b1" (Some "buyer").

Definition order (st : string) (ts : option (gmap string string)) : OrderRow :=
  mkOrderRow "b1" "s1" st ts "2024-04-30T09:00:00".

Definition store (st : string) (ts : option (gmap string string)) : World :=
  mkWorld (mkSupabase ∅ [] {[ 7%Z := order st ts ]} []) [].

End Sample.

(** The status names an order carries a timestamp for. *)
Definition stamps (o : OrderRow) : gmap string string :=
  default ∅ (status_timestamps o).

(** Every recorded timestamp belongs to a lifecycle position the order has
    reached.  Orders start as "Placed" with no timestamps, which satisfies
    this, and status updates keep it. *)
Definition well_formed (o : OrderRow) : Prop :=
  exists j, status_index (status o) = Some j /\
    forall k, is_Some (stamps o !! k) ->
      exists i, status_index k = Some i /\ (i <= j)%Z.

(** The list an allowed caller receives, for the column its role selects. *)
Definition listing (c : OrderCol) (user_id : string) (d : Supabase)
    : list Order :=
  map (fun p => mkOrder p.1 p.2
                  (filter (fun it => item_order_id it = p.1) (order_items d)))
    (filter (fun p => order_col c p.2 = user_id) (map_to_list (orders d))).

(** Three orders of two buyers and two sellers, with their items. *)
Module SampleOrders.

Definition row (b s : string) : OrderRow :=
  mkOrderRow b s "Placed" None "2024-04-30T09:00:00".

Definition world : World :=
  mkWorld
    (mkSupabase ∅ []
       (<[ 1%Z := row "b1" "s1" ]> (<[ 2%Z := row "b2" "s1" ]>
          (<[ 3%Z := row "b1" "s2" ]> ∅)))
       [mkOrderItem 10 1 "pen" 2 "1.50"; mkOrderItem 11 3 "ink" 1 "4.00";
        mkOrderItem 12 1 "pad" 1 "2.25"])
    [].

End SampleOrders.

(** The languages [send_message] compares, and the translation it stores. *)
Definition sender_lang (w : World) (user : User) : option string :=
  Chat.lang_of (profiles (db w) !! sub user).

Definition receiver_lang (w : World) (receiver_id : string) : option string :=
  Chat.lang_of (profiles (db w) !! receiver_id).

Definition translate_params (e : Env) (w : World) (receiver_id text : string)
    (user : User) : TranslateParams :=
  mkParams text (receiver_lang w receiver_id) (GOOGLE_TRANSLATE_API_KEY e)
    (if truthy (sender_lang w user) then sender_lang w user else None).

Definition translation (e : Env) (w : World) (receiver_id text : string)
    (user : User) : option string :=
  if bool_decide (sender_lang w user <> receiver_lang w receiver_id) then
    let resp := requests_post e (translate_params e w receiver_id text user) in
    if (status_code resp =? 200)%Z then Some (translatedText resp) else None
  else None.

Definition send_calls (e : Env) (w : World) (receiver_id text : string)
    (user : User) : list Event :=
  ([ev_select_profile (sub user); ev_select_profile receiver_id]
   ++ (if bool_decide (sender_lang w user <> receiver_lang w receiver_id)
       then [ev_http_post (translate_params e w receiver_id text user)]
       else [])
   ++ [ev_insert_message (sub user) receiver_id text
         (translation e w receiver_id text user)])%list.

(** Three profiles and four stored messages. *)
Module SampleChat.

Definition en_user : User := mkUser "u1" (Some "buyer").

Definition world : World :=
  mkWorld
    (mkSupabase
       (<[ "u1" := mkProfile (Some "en") ]>
          (<[ "u2" := mkProfile (Some "es") ]>
             (<[ "u3" := mkProfile (Some "en") ]> ∅)))
       [mkMessage 1 "u1" "u2" "hello" (Some "hola") 100;
        mkMessage 2 "u3" "u1" "hi" None 105;
        mkMessage 3 "u2" "u1" "gracias" (Some "thanks") 90;
        mkMessage 4 "u1" "u1" "note to self" None 110]
       ∅ [])
    [].

(** A provider that is down. *)
Definition env_down : Env :=
  mkEnv "2024-05-01T10:00:00" 120 false
    (fun _ => mkHttpResponse 503 "") "k".

End SampleChat.

(** The paging parameters FastAPI lets through. *)
Definition limit_ok (limit : option Z) : Prop :=
  match limit with
  | Some v => (1 <= v <= 100)%Z
  | None => True
  end.

Definition offset_ok (offset : option Z) : Prop :=
  match offset with
  | Some v => (0 <= v)%Z
  | None => True
  end.

#[global] Instance limit_ok_dec limit : Decision (limit_ok limit).
Proof. destruct limit; simpl; apply _. Defined.

#[global] Instance offset_ok_dec offset : Decision (offset_ok offset).
Proof. destruct offset; simpl; apply _. Defined.

(** The rows the store returns for a conversation between [a] and [b]. *)
Definition thread (a b : string) (d : Supabase) : list Message :=
  merge_sort ts_le
    (filter (fun m => eval_filter (Chat.conversation_filter a b) m = true)
       (messages d)).

(** The world after the message query. *)
Definition after_select (w : World) (a b : string) (first last : Z) : World :=
  mkWorld (db w)
    (calls w ++ [ev_select_messages (Chat.conversation_filter a b) first last]).

(** Whether character [c] occurs in [s]. *)
Fixpoint has_char (c : ascii) (s : string) : bool :=
  match s with
  | EmptyString => false
  | String c' s' => Ascii.eqb c' c || has_char c s'
  end.

(** ** The languages the store holds *)





(** A sender whose profile has a NULL language, and a receiver who prefers
    "en". *)
Module SampleNull.

Definition sender : User := mkUser "n1" (Some "buyer").

Definition world : World :=
  mkWorld
    (mkSupabase
       (<[ "n1" := mkProfile None ]> (<[ "u1" := mkProfile (Some "en") ]> ∅))
       [] ∅ [])
    [].

End SampleNull.

(** ** Vocabulary of the further properties *)

(** [sep.join(parts)] *)
Fixpoint join (sep : ascii) (parts : list string) : string :=
  match parts with
  | [] => ""
  | p :: rest =>
    match rest with
    | [] => p
    | _ :: _ => p ++ String sep (join sep rest)
    end
  end.

(** [s.count(c)] *)
Fixpoint count_char (c : ascii) (s : string) : nat :=
  match s with
  | EmptyString => 0
  | String c' s' => (if Ascii.eqb c' c then 1 else 0) + count_char c s'
  end.

(** The id [get_messages] expects for the conversation of [a] and [b]. *)
Definition conversation_id_of (a b : string) : string :=
  a ++ String "_" b.

(** Whether request [r], served in world [w], is a status update of order
    [id] that is answered with a body. *)
Definition accepts (id : Z) (r : Request) (e : Env) (w : World) : bool :=
  match r with
  | req_update_order_status m order_id new_status user =>
    bool_decide (order_id = id) &&
    match (update_order_status_at m order_id new_status user e w).1 with
    | inr _ => true
    | inl _ => false
    end
  | _ => false
  end.

(** How many requests of a sequence are accepted status updates of [id]. *)
Fixpoint accepted_updates (id : Z) (rs : list (Request * Env)) (w : World)
    : nat :=
  match rs with
  | [] => 0
  | re :: rs' =>
    (if accepts id re.1 re.2 w then 1 else 0)
    + accepted_updates id rs' (serve re.1 re.2 w)
  end.

(** Request [r] is a status update of order [id] made by seller [seller]. *)
Definition by_seller_of (id : Z) (seller : string) (r : Request) : Prop :=
  match r with
  | req_update_order_status _ order_id _ user =>
    order_id = id /\ role user = Some "seller" /\ sub user = seller
  | _ => False
  end.

(** The row [send_message] hands to the store. *)
Definition sent_message (e : Env) (w : World) (receiver text : string)
    (user : User) : Message :=
  mkMessage (next_msg_id (messages (db w))) (sub user) receiver text
    (translation e w receiver text user) (store_now e).

(** The two participants of a conversation, in either order. *)
Definition between (a b : string) (m : Message) : Prop :=
  (sender_id m = a /\ receiver_id m = b) \/
  (sender_id m = b /\ receiver_id m = a).

#[global] Instance between_dec a b m : Decision (between a b m).
Proof. unfold between. apply _. Defined.

(** * Properties *)

(** The handlers run.  An "Accepted" order moved to "Out for Delivery"
    answers with the order id and the new status, and afterwards carries a
    timestamp for both statuses. *)
Example update_accepted_order :
  update_order_status_at main_py 7 "Out for Delivery" Sample.seller
    (Sample.env false)
    (Sample.store "Accepted" (Some {[ "Accepted" := "2024-04-30T12:00:00" ]}))
  = (inr (mkStatusUpdated "Order status updated" 7 "Out for Delivery"),
     mkWorld
       (mkSupabase ∅ []
          {[ 7%Z := Sample.order "Out for Delivery"
                      (Some (<[ "Out for Delivery" := "2024-05-01T10:00:00" ]>
                               {[ "Accepted" := "2024-04-30T12:00:00" ]})) ]}
          [])
       [ev_select_order 7;
        ev_update_order 7 "Out for Delivery"
          (<[ "Out for Delivery" := "2024-05-01T10:00:00" ]>
             {[ "Accepted" := "2024-04-30T12:00:00" ]})]).
Proof. vm_compute. reflexivity. Qed.

Example skip_is_rejected :
  (update_order_status_at order_tracking_py 7 "Delivered" Sample.seller
     (Sample.env false) (Sample.store "Placed" None)).1
  = inl (BadRequest "Invalid status transition").
Proof. reflexivity. Qed.

Example repr_examples :
  py_repr "Cancelled" = "'Cancelled'" /\
  py_repr "it's" = String "034" ("it's" ++ String "034" "") /\
  py_repr (String "009" "a\b") = "'\ta\\b'".
Proof. repeat split. Qed.

Example split_examples :
  split "_" "u1_u2" = ["u1"; "u2"] /\ split "_" "" = [""] /\
  split "_" "a__b" = ["a"; ""; "b"] /\ split "_" "_" = [""; ""].
Proof. repeat split. Qed.

Example conversation_page :
  (Chat.get_messages "u2_u1" SampleChat.en_user None None SampleChat.env_down
     SampleChat.world).1
  = inr [mkMessage 3 "u2" "u1" "gracias" (Some "thanks") 90;
         mkMessage 1 "u1" "u2" "hello" (Some "hola") 100].
Proof. vm_compute. reflexivity. Qed.

Example translated_send :
  messages
    (db (Chat.send_message "u2" "bye" SampleChat.en_user (Sample.env false)
           SampleChat.world).2)
  = (messages (db SampleChat.world)
       ++ [mkMessage 5 "u1" "u2" "bye" (Some "hola") 1714557600])%list.
Proof. vm_compute. reflexivity. Qed.

Example seller_lists_any_user :
  match (get_orders_at main_py "s1" Sample.other_seller (Sample.env false)
           SampleOrders.world).1 with
  | inr l => list_to_set (map order_id l) = ({[ 1%Z; 2%Z ]} : gset Z)
  | inl _ => False
  end.
Proof. vm_compute. reflexivity. Qed.

Ltac run :=
  unfold bind, ret, raise, emit, get_db, put_db, ask, select_order,
    update_order, index in *; simpl in *.

(** *** Membership and positions in a Python list *)

Lemma contains_elem_of l x : contains l x = true <-> x ∈ l.
Proof.
  unfold contains. rewrite existsb_exists. split.
  - intros (y & Hy & Heq). apply String.eqb_eq in Heq. subst.
    by apply list_elem_of_In.
  - intros Hx. exists x. split; [by apply list_elem_of_In|apply String.eqb_refl].
Qed.

Lemma index_from_Some l x i j :
  index_from l x i = Some j -> x ∈ l /\ (i <= j < i + Z.of_nat (length l))%Z.
Proof.
  revert i. induction l as [|y l IH]; intros i; simpl; [done|].
  destruct (String.eqb_spec x y) as [->|Hne].
  - intros Hj. injection Hj as Hj. split; [left|lia].
  - intros Hj. apply IH in Hj as [Hin Hj]. split; [by right|lia].
Qed.

Lemma index_from_None l x i : index_from l x i = None <-> x ∉ l.
Proof.
  revert i. induction l as [|y l IH]; intros i; simpl.
  - split; [intros _; apply not_elem_of_nil|done].
  - destruct (String.eqb_spec x y) as [->|Hne].
    + split; [done|]. intros H. exfalso. apply H. left.
    + rewrite IH, not_elem_of_cons. tauto.
Qed.

Lemma status_index_is_Some s :
  is_Some (status_index s) <-> s ∈ Main.ORDER_STATUSES.
Proof.
  unfold status_index. split.
  - intros [j Hj]. by apply index_from_Some in Hj as [? _].
  - intros Hin. destruct (index_from _ _ _) eqn:E; [done|].
    by apply index_from_None in E.
Qed.

Lemma status_index_contains s :
  contains Main.ORDER_STATUSES s = true <-> is_Some (status_index s).
Proof. by rewrite contains_elem_of, status_index_is_Some. Qed.

Lemma status_index_range s i : status_index s = Some i -> (0 <= i <= 3)%Z.
Proof.
  intros H. apply index_from_Some in H as [_ H]. simpl in H. lia.
Qed.

(** The four names and their positions. *)
Lemma status_index_inv s i :
  status_index s = Some i ->
  (s = "Placed" /\ i = 0) \/ (s = "Accepted" /\ i = 1) \/
  (s = "Out for Delivery" /\ i = 2) \/ (s = "Delivered" /\ i = 3).
Proof.
  unfold status_index. simpl.
  repeat match goal with
         | |- context [String.eqb s ?y] =>
           destruct (String.eqb_spec s y) as [->|?];
           [intros [= <-]; cbn; auto 10|]
         end.
  done.
Qed.

(** *** What one status update does, case by case *)

#[local] Arguments index_from : simpl never.
#[local] Arguments contains : simpl never.

Ltac at_mount m :=
  destruct m; unfold update_order_status_at, get_orders_at,
    Main.update_order_status, OrderTracking.update_order_status,
    Main.get_orders, OrderTracking.get_orders.

Ltac use_index H :=
  unfold index;
  match type of H with
  | status_index ?s = ?r =>
    change (index_from Main.ORDER_STATUSES s 0) with (status_index s);
    change (index_from OrderTracking.ORDER_STATUSES s 0) with (status_index s);
    rewrite H
  end.

(** Runs a status update up to the position lookups, given that the caller
    is the seller of the stored order and [new_status] is listed. *)
Ltac past_checks m Hrole Horder Hown Hlisted :=
  at_mount m; rewrite Hrole; unfold bind, select_order, emit, get_db, ret;
  simpl; rewrite Horder, Hown; simpl;
  change OrderTracking.ORDER_STATUSES with Main.ORDER_STATUSES;
  rewrite Hlisted; simpl.

Lemma update_not_seller m e w order_id new_status user :
  role_is user "seller" = false ->
  update_order_status_at m order_id new_status user e w
  = (inl (Forbidden "Only sellers can update order status"), w).
Proof. intros H. at_mount m; by rewrite H. Qed.

Lemma update_not_found m e w order_id new_status user :
  role_is user "seller" = true ->
  orders (db w) !! order_id = None ->
  update_order_status_at m order_id new_status user e w
  = (inl (NotFound "Order not found"), after_lookup w order_id).
Proof. intros H H1. at_mount m; rewrite H; run; by rewrite H1. Qed.

Lemma update_not_owner m e w order_id o new_status user :
  role_is user "seller" = true ->
  orders (db w) !! order_id = Some o ->
  seller_id o <> sub user ->
  update_order_status_at m order_id new_status user e w
  = (inl (Forbidden "You can only update your own orders"),
     after_lookup w order_id).
Proof.
  intros H H1 H2. apply String.eqb_neq in H2.
  at_mount m; rewrite H; run; by rewrite H1, H2.
Qed.

Lemma update_invalid_status m e w order_id o new_status user :
  role_is user "seller" = true ->
  orders (db w) !! order_id = Some o ->
  seller_id o = sub user ->
  status_index new_status = None ->
  update_order_status_at m order_id new_status user e w
  = (inl (BadRequest "Invalid status"), after_lookup w order_id).
Proof.
  intros H H1 H2 H3. apply String.eqb_eq in H2.
  assert (contains Main.ORDER_STATUSES new_status = false) as H4.
  { destruct (contains _ _) eqn:E; [|done].
    apply status_index_contains in E as [? E]. congruence. }
  at_mount m; rewrite H; run; rewrite H1, H2; simpl;
    change OrderTracking.ORDER_STATUSES with Main.ORDER_STATUSES;
    by rewrite H4.
Qed.

Lemma update_value_error m e w order_id o new_status user i :
  role_is user "seller" = true ->
  orders (db w) !! order_id = Some o ->
  seller_id o = sub user ->
  status_index new_status = Some i ->
  status_index (status o) = None ->
  update_order_status_at m order_id new_status user e w
  = (inl (ValueError (py_repr (status o) ++ " is not in list")),
     after_lookup w order_id).
Proof.
  intros H H1 H2 H3 H5. apply String.eqb_eq in H2.
  assert (contains Main.ORDER_STATUSES new_status = true) as H4.
  { apply status_index_contains. by exists i. }
  past_checks m H H1 H2 H4; use_index H3; use_index H5; done.
Qed.

Lemma update_invalid_transition m e w order_id o new_status user i j :
  role_is user "seller" = true ->
  orders (db w) !! order_id = Some o ->
  seller_id o = sub user ->
  status_index new_status = Some i ->
  status_index (status o) = Some j ->
  i <> (j + 1)%Z ->
  update_order_status_at m order_id new_status user e w
  = (inl (BadRequest "Invalid status transition"), after_lookup w order_id).
Proof.
  intros H H1 H2 H3 H5 H6. apply String.eqb_eq in H2.
  apply Z.eqb_neq in H6.
  assert (contains Main.ORDER_STATUSES new_status = true) as H4.
  { apply status_index_contains. by exists i. }
  past_checks m H H1 H2 H4; use_index H3; use_index H5; simpl; by rewrite H6.
Qed.

Lemma update_accepted m e w order_id o new_status user i j :
  role_is user "seller" = true ->
  orders (db w) !! order_id = Some o ->
  seller_id o = sub user ->
  status_index new_status = Some i ->
  status_index (status o) = Some j ->
  i = (j + 1)%Z ->
  update_order_status_at m order_id new_status user e w
  = if store_error e then
      (inl (HTTPException 500 "Failed to update order status"),
       after_failed_update e w order_id o new_status)
    else
      (inr (mkStatusUpdated "Order status updated" order_id new_status),
       after_update e w order_id o new_status).
Proof.
  intros H H1 H2 H3 H5 H6. apply String.eqb_eq in H2.
  apply Z.eqb_eq in H6.
  assert (contains Main.ORDER_STATUSES new_status = true) as H4.
  { apply status_index_contains. by exists i. }
  past_checks m H H1 H2 H4; use_index H3; use_index H5; simpl; rewrite H6;
    unfold update_order, bind, emit, ask, ret, put_db, get_db; simpl;
    by destruct (store_error e).
Qed.

Lemma role_is_true user r : role_is user r = true <-> role user = Some r.
Proof.
  unfold role_is. destruct (role user) as [r'|].
  - rewrite String.eqb_eq. split; congruence.
  - split; discriminate.
Qed.

Lemma role_is_false user r : role_is user r = false <-> role user <> Some r.
Proof.
  rewrite <- role_is_true. destruct (role_is user r); split; congruence.
Qed.

(** A status update either leaves the datastore alone or is the accepted
    single step, and only the latter answers with a body. *)
Lemma update_outcome m e w order_id new_status user :
  let out := update_order_status_at m order_id new_status user e w in
  ((exists x, out.1 = inl x) /\ db out.2 = db w) \/
  (exists o i j,
     role user = Some "seller" /\ orders (db w) !! order_id = Some o /\
     seller_id o = sub user /\ status_index new_status = Some i /\
     status_index (status o) = Some j /\ i = (j + 1)%Z /\
     store_error e = false /\
     out = (inr (mkStatusUpdated "Order status updated" order_id new_status),
            after_update e w order_id o new_status)).
Proof.
  intros out. subst out.
  destruct (role_is user "seller") eqn:Hrole;
    [|left; rewrite update_not_seller by done; eauto].
  destruct (orders (db w) !! order_id) as [o|] eqn:Ho;
    [|left; rewrite update_not_found by done; eauto].
  destruct (decide (seller_id o = sub user)) as [Hown|Hown];
    [|left; rewrite (update_not_owner _ _ _ _ o) by done; eauto].
  destruct (status_index new_status) as [i|] eqn:Hi;
    [|left; rewrite (update_invalid_status _ _ _ _ o) by done; eauto].
  destruct (status_index (status o)) as [j|] eqn:Hj;
    [|left; rewrite (update_value_error _ _ _ _ o _ _ i) by done; eauto].
  destruct (decide (i = (j + 1)%Z)) as [Hstep|Hstep];
    [|left; rewrite (update_invalid_transition _ _ _ _ o _ _ i j) by done;
      eauto].
  rewrite (update_accepted _ _ _ _ o _ _ i j) by done.
  destruct (store_error e) eqn:Herr; [left; eauto|].
  right. exists o, i, j. by rewrite <- role_is_true.
Qed.

Lemma update_success_inv m e w order_id new_status user body w' :
  update_order_status_at m order_id new_status user e w = (inr body, w') ->
  exists o i j,
    role user = Some "seller" /\ orders (db w) !! order_id = Some o /\
    seller_id o = sub user /\ status_index new_status = Some i /\
    status_index (status o) = Some j /\ i = (j + 1)%Z /\
    store_error e = false /\
    body = mkStatusUpdated "Order status updated" order_id new_status /\
    w' = after_update e w order_id o new_status.
Proof.
  intros Hrun.
  destruct (update_outcome m e w order_id new_status user)
    as [[[x Hx] _]|(o & i & j & H)].
  - rewrite Hrun in Hx. discriminate.
  - destruct H as (? & ? & ? & ? & ? & ? & ? & Hout).
    rewrite Hrun in Hout. injection Hout as -> ->.
    exists o, i, j. repeat split; done.
Qed.

(** *** Status transitions *)

(** C1 (as amended).  For an existing order whose stored status is one of
    the four lifecycle names, and a caller who is the seller of that order:
    a [new_status] taken from the list is accepted exactly when its position
    is the position of the current status plus one (the request then
    succeeds unless the datastore reports an error on the write); every
    other listed [new_status] is rejected with 400 "Invalid status
    transition" and the datastore is left as it was; a [new_status] outside
    the list is rejected with 400 "Invalid status". *)
Theorem update_status_single_step (m : Mount) (e : Env) (w : World)
    (order_id : Z) (o : OrderRow) (new_status : string) (user : User) :
  orders (db w) !! order_id = Some o ->
  role user = Some "seller" ->
  sub user = seller_id o ->
  let out := update_order_status_at m order_id new_status user e w in
  (forall i j,
     status_index new_status = Some i ->
     status_index (status o) = Some j ->
     ((exists body, out.1 = inr body)
        <-> i = (j + 1)%Z /\ store_error e = false) /\
     (i <> (j + 1)%Z ->
        out.1 = inl (BadRequest "Invalid status transition") /\
        db out.2 = db w)) /\
  (status_index new_status = None ->
     out.1 = inl (BadRequest "Invalid status") /\ db out.2 = db w).
Proof.
  intros Ho Hrole Hsub out. apply role_is_true in Hrole. symmetry in Hsub.
  split.
  - intros i j Hi Hj. split.
    + split.
      * intros [body Hbody]. subst out.
        destruct (update_order_status_at m order_id new_status user e w)
          as [r w'] eqn:Hrun.
        simpl in Hbody. subst r.
        apply update_success_inv in Hrun
          as (o' & i' & j' & _ & Ho' & _ & Hi' & Hj' & Hstep & Herr & _).
        rewrite Ho in Ho'. injection Ho' as <-.
        rewrite Hi in Hi'. rewrite Hj in Hj'.
        injection Hi' as <-. injection Hj' as <-. done.
      * intros [Hstep Herr]. subst out.
        rewrite (update_accepted m e w order_id o new_status user i j)
          by done.
        rewrite Herr. eauto.
    + intros Hstep. subst out.
      by rewrite (update_invalid_transition m e w order_id o new_status
                    user i j).
  - intros Hi. subst out.
    by rewrite (update_invalid_status m e w order_id o new_status user).
Qed.

Lemma update_status_single_step_witness :
  exists body,
    (update_order_status_at main_py 7 "Out for Delivery" Sample.seller
       (Sample.env false) (Sample.store "Accepted" None)).1 = inr body.
Proof.
  destruct (update_status_single_step main_py (Sample.env false)
              (Sample.store "Accepted" None) 7 (Sample.order "Accepted" None)
              "Out for Delivery" Sample.seller
              eq_refl eq_refl eq_refl) as [Hlisted _].
  destruct (Hlisted 2%Z 1%Z eq_refl eq_refl) as [[_ Haccept] _].
  apply Haccept. split; reflexivity.
Defined.

(** C1 as stated fails on an order whose stored status is not one of the
    four names: the request is neither accepted nor answered with 400, the
    position lookup raises [ValueError]. *)
Lemma update_status_single_step_counterexample :
  orders (db (Sample.store "Cancelled" None)) !! 7%Z
    = Some (Sample.order "Cancelled" None) /\
  role Sample.seller = Some "seller" /\
  sub Sample.seller = seller_id (Sample.order "Cancelled" None) /\
  "Placed" ∈ Main.ORDER_STATUSES /\
  (update_order_status_at main_py 7 "Placed" Sample.seller
     (Sample.env false) (Sample.store "Cancelled" None)).1
    = inl (ValueError "'Cancelled' is not in list") /\
  (update_order_status_at main_py 7 "Placed" Sample.seller
     (Sample.env false) (Sample.store "Cancelled" None)).1
    <> inl (BadRequest "Invalid status transition") /\
  ~ (exists body,
       (update_order_status_at main_py 7 "Placed" Sample.seller
          (Sample.env false) (Sample.store "Cancelled" None)).1 = inr body).
Proof.
  assert ((update_order_status_at main_py 7 "Placed" Sample.seller
             (Sample.env false) (Sample.store "Cancelled" None)).1
          = inl (ValueError "'Cancelled' is not in list")) as Hrun
    by (vm_compute; reflexivity).
  split; [reflexivity|]. split; [reflexivity|]. split; [reflexivity|].
  split; [apply status_index_is_Some; by exists 0%Z|].
  split; [exact Hrun|]. rewrite Hrun. split.
  - unfold BadRequest. intros [=].
  - intros [body [=]].
Qed.

(** C2.  The three authorization outcomes of a status update, none of which
    looks at [new_status]: a caller whose role is not "seller" gets 403
    before any gateway call is issued; a seller asking for an order that
    does not exist gets 404; a seller who is not the order's seller gets
    403.  In each case the answer is the same for every [new_status]. *)
Theorem update_status_authorization (m : Mount) (e : Env) (w : World)
    (order_id : Z) (new_status : string) (user : User) :
  let out := update_order_status_at m order_id new_status user e w in
  (role user <> Some "seller" ->
     out = (inl (Forbidden "Only sellers can update order status"), w)) /\
  (role user = Some "seller" -> orders (db w) !! order_id = None ->
     out.1 = inl (NotFound "Order not found") /\ db out.2 = db w) /\
  (forall o, role user = Some "seller" ->
     orders (db w) !! order_id = Some o -> seller_id o <> sub user ->
     out.1 = inl (Forbidden "You can only update your own orders") /\
     db out.2 = db w) /\
  (role user <> Some "seller" \/ orders (db w) !! order_id = None \/
   (exists o, orders (db w) !! order_id = Some o /\ seller_id o <> sub user) ->
   forall other_status,
     update_order_status_at m order_id other_status user e w = out).
Proof.
  intros out. subst out. split; [|split; [|split]].
  - intros Hrole. apply role_is_false in Hrole.
    by apply update_not_seller.
  - intros Hrole Hnone. apply role_is_true in Hrole.
    by rewrite update_not_found.
  - intros o Hrole Ho Hown. apply role_is_true in Hrole.
    by rewrite (update_not_owner m e w order_id o).
  - intros Hcase other_status.
    destruct (role_is user "seller") eqn:Hrole.
    + destruct Hcase as [Hcase|[Hcase|(o & Ho & Hown)]].
      * apply role_is_false in Hcase. congruence.
      * by rewrite !update_not_found.
      * by rewrite !(update_not_owner m e w order_id o).
    + by rewrite !update_not_seller.
Qed.

Lemma update_status_authorization_witness :
  update_order_status_at order_tracking_py 7 "Accepted" Sample.buyer
    (Sample.env false) (Sample.store "Placed" None)
  = (inl (Forbidden "Only sellers can update order status"),
     Sample.store "Placed" None) /\
  (update_order_status_at order_tracking_py 8 "Accepted" Sample.seller
     (Sample.env false) (Sample.store "Placed" None)).1
  = inl (NotFound "Order not found") /\
  (update_order_status_at order_tracking_py 7 "Accepted" Sample.other_seller
     (Sample.env false) (Sample.store "Placed" None)).1
  = inl (Forbidden "You can only update your own orders") /\
  update_order_status_at order_tracking_py 7 "no such status"
    Sample.other_seller (Sample.env false) (Sample.store "Placed" None)
  = update_order_status_at order_tracking_py 7 "Accepted"
      Sample.other_seller (Sample.env false) (Sample.store "Placed" None).
Proof.
  split; [|split; [|split]].
  - destruct (update_status_authorization order_tracking_py
                (Sample.env false) (Sample.store "Placed" None) 7 "Accepted"
                Sample.buyer) as (Hrole & _).
    apply Hrole. simpl. discriminate.
  - destruct (update_status_authorization order_tracking_py
                (Sample.env false) (Sample.store "Placed" None) 8 "Accepted"
                Sample.seller) as (_ & Hmissing & _).
    apply Hmissing; reflexivity.
  - destruct (update_status_authorization order_tracking_py
                (Sample.env false) (Sample.store "Placed" None) 7 "Accepted"
                Sample.other_seller) as (_ & _ & Hown & _).
    apply (Hown (Sample.order "Placed" None));
      [reflexivity|reflexivity|simpl; discriminate].
  - destruct (update_status_authorization order_tracking_py
                (Sample.env false) (Sample.store "Placed" None) 7 "Accepted"
                Sample.other_seller) as (_ & _ & _ & Hany).
    apply Hany. right. right. exists (Sample.order "Placed" None).
    split; [reflexivity|simpl; discriminate].
Defined.

(** *** Handlers that do not write to table [orders] *)

Lemma get_orders_db m user_id user e w :
  db (get_orders_at m user_id user e w).2 = db w.
Proof.
  at_mount m;
    (destruct (negb _ && negb _); [done|];
     destruct (role_is user "buyer");
       [|destruct (role_is user "seller"); [|done]];
     unfold bind, ret, select_orders, select_items, emit, get_db; simpl;
     destruct (filter _ _); done).
Qed.

Lemma Query_world name default ge le given e w :
  (Query name default ge le given e w).2 = w.
Proof.
  unfold Query. destruct given as [v|]; [|done].
  destruct (v <? ge)%Z; [done|]. destruct le as [hi|]; [|done].
  by destruct (hi <? v)%Z.
Qed.

Lemma get_messages_db conversation_id user limit offset e w :
  db (Chat.get_messages conversation_id user limit offset e w).2 = db w.
Proof.
  unfold Chat.get_messages, bind.
  pose proof (Query_world "limit" 50 1 (Some 100%Z) limit e w) as Hl.
  destruct (Query "limit" _ _ _ limit e w) as [[x|lim] w1]; simpl in Hl;
    subst w1; [done|].
  pose proof (Query_world "offset" 0 0 None offset e w) as Hf.
  destruct (Query "offset" _ _ _ offset e w) as [[x|off] w1]; simpl in Hf;
    subst w1; [done|].
  destruct (negb _); [done|]. destruct (negb _); [done|].
  unfold select_messages, bind, emit, ask, get_db, ret, raise. simpl.
  by destruct (store_error e).
Qed.

Lemma send_message_orders receiver_id text user e w :
  orders (db (Chat.send_message receiver_id text user e w).2)
  = orders (db w).
Proof.
  unfold Chat.send_message, Chat.translate_text, select_profile,
    insert_message, post, bind, emit, ask, get_db, put_db, ret, raise.
  simpl. destruct (bool_decide _); simpl.
  - destruct (status_code _ =? 200)%Z; by destruct (store_error e).
  - by destruct (store_error e).
Qed.

(** *** What a request does to one order *)

Lemma after_update_orders e w order_id o new_status id :
  orders (db w) !! order_id = Some o ->
  orders (db (after_update e w order_id o new_status)) !! id
  = if decide (order_id = id)
    then Some (set_status new_status (stamped e o new_status) o)
    else orders (db w) !! id.
Proof.
  intros Ho. unfold after_update. simpl. rewrite lookup_alter.
  case_decide; [subst; by rewrite Ho|done].
Qed.

Lemma stamped_lookup e o new_status k :
  stamped e o new_status !! k
  = if decide (new_status = k) then Some (utcnow_isoformat e)
    else stamps o !! k.
Proof. unfold stamped, stamps. apply lookup_insert. Qed.

Lemma serve_update_order m e w order_id new_status user id o :
  orders (db w) !! id = Some o ->
  let w' := (update_order_status_at m order_id new_status user e w).2 in
  orders (db w') !! id = Some o \/
  (exists j,
     status_index (status o) = Some j /\
     status_index new_status = Some (j + 1)%Z /\
     orders (db w') !! id
     = Some (set_status new_status (stamped e o new_status) o)).
Proof.
  intros Ho w'. subst w'.
  destruct (update_outcome m e w order_id new_status user)
    as [[_ Hdb]|(o' & i & j & _ & Ho' & _ & Hi & Hj & Hstep & _ & Hout)].
  - left. by rewrite Hdb.
  - rewrite Hout. simpl snd. rewrite (after_update_orders _ _ _ _ _ _ Ho').
    case_decide as Hid; [|by left].
    subst id. rewrite Ho in Ho'. injection Ho' as <-.
    right. exists j. by subst i.
Qed.

Lemma serve_order r e w id o :
  orders (db w) !! id = Some o ->
  exists o',
    orders (db (serve r e w)) !! id = Some o' /\
    (status o' = status o \/
     exists i j, status_index (status o) = Some i /\
       status_index (status o') = Some j /\ (i < j)%Z) /\
    (forall k, is_Some (stamps o !! k) -> is_Some (stamps o' !! k)).
Proof.
  intros Ho.
  assert (orders (db (serve r e w)) !! id = Some o ->
          exists o', orders (db (serve r e w)) !! id = Some o' /\
            (status o' = status o \/
             exists i j, status_index (status o) = Some i /\
               status_index (status o') = Some j /\ (i < j)%Z) /\
            (forall k, is_Some (stamps o !! k) -> is_Some (stamps o' !! k)))
    as Hsame by (intros ->; exists o; auto).
  destruct r as [m user_id user|m order_id new_status user
                 |receiver_id text user|conversation_id user limit offset];
    simpl in *.
  - apply Hsame. by rewrite get_orders_db.
  - destruct (serve_update_order m e w order_id new_status user id o Ho)
      as [Hkeep|(j & Hj & Hnew & Hset)]; [by apply Hsame|].
    eexists. split; [exact Hset|]. split.
    + right. exists j, (j + 1)%Z. simpl. repeat split; [done|done|lia].
    + intros k Hk. unfold stamps at 1. simpl. rewrite stamped_lookup.
      by case_decide.
  - apply Hsame. by rewrite send_message_orders.
  - apply Hsame. by rewrite get_messages_db.
Qed.

Lemma serve_all_order rs w id o :
  orders (db w) !! id = Some o ->
  exists o',
    orders (db (serve_all rs w)) !! id = Some o' /\
    (status o' = status o \/
     exists i j, status_index (status o) = Some i /\
       status_index (status o') = Some j /\ (i < j)%Z) /\
    (forall k, is_Some (stamps o !! k) -> is_Some (stamps o' !! k)).
Proof.
  revert w o. induction rs as [|[r e] rs IH]; intros w o Ho; simpl.
  - exists o. auto.
  - destruct (serve_order r e w id o Ho) as (o1 & Ho1 & Hst1 & Hk1).
    destruct (IH _ _ Ho1) as (o2 & Ho2 & Hst2 & Hk2).
    exists o2. split; [exact Ho2|]. split; [|auto].
    destruct Hst1 as [E1|(i & j & Hi & Hj & Hij)].
    + rewrite <- E1. exact Hst2.
    + right. destruct Hst2 as [E2|(i' & j' & Hi' & Hj' & Hij')].
      * exists i, j. by rewrite E2.
      * rewrite Hj in Hi'. injection Hi' as <-.
        exists i, j'. repeat split; [done|done|lia].
Qed.

(** Status updates keep an order well formed. *)
Lemma serve_well_formed r e w id o :
  orders (db w) !! id = Some o -> well_formed o ->
  exists o', orders (db (serve r e w)) !! id = Some o' /\ well_formed o'.
Proof.
  intros Ho Hwf.
  destruct r as [m user_id user|m order_id new_status user
                 |receiver_id text user|conversation_id user limit offset];
    simpl.
  - exists o. by rewrite get_orders_db.
  - destruct (serve_update_order m e w order_id new_status user id o Ho)
      as [Hkeep|(j & Hj & Hnew & Hset)]; [by exists o|].
    eexists. split; [exact Hset|].
    destruct Hwf as (j' & Hj' & Hkeys). rewrite Hj in Hj'.
    injection Hj' as <-.
    exists (j + 1)%Z. split; [done|]. intros k.
    unfold stamps at 1. simpl. rewrite stamped_lookup.
    case_decide as Hk.
    + subst k. intros _. exists (j + 1)%Z. split; [done|lia].
    + intros Hin. destruct (Hkeys k Hin) as (i & Hi & Hle).
      exists i. split; [done|lia].
  - exists o. by rewrite send_message_orders.
  - exists o. by rewrite get_messages_db.
Qed.

(** On a well-formed order the status being entered has no timestamp yet. *)
Lemma well_formed_fresh o j new_status :
  well_formed o ->
  status_index (status o) = Some j ->
  status_index new_status = Some (j + 1)%Z ->
  stamps o !! new_status = None.
Proof.
  intros (j' & Hj' & Hkeys) Hj Hnew.
  destruct (stamps o !! new_status) eqn:E; [|done].
  destruct (Hkeys new_status) as (i & Hi & Hle); [by rewrite E|].
  rewrite Hj in Hj'. rewrite Hnew in Hi. simplify_eq. lia.
Qed.

(** C3 (as amended).  After a successful status update the stored order has
    [status = new_status]; its [status_timestamps] has exactly the earlier
    keys together with [new_status], which maps to the current UTC time;
    every key other than [new_status] keeps its value (an entry already
    stored under [new_status] is overwritten, which cannot happen on a
    well-formed order, where all earlier entries are kept).  No request of
    the system removes a key from an order's [status_timestamps]. *)
Theorem update_status_effect :
  (forall m e w order_id new_status user body w',
     update_order_status_at m order_id new_status user e w = (inr body, w') ->
     exists o o' ts',
       orders (db w) !! order_id = Some o /\
       orders (db w') !! order_id = Some o' /\
       status o' = new_status /\
       status_timestamps o' = Some ts' /\
       dom ts' = dom (stamps o) ∪ {[ new_status ]} /\
       ts' !! new_status = Some (utcnow_isoformat e) /\
       (forall k, k <> new_status -> ts' !! k = stamps o !! k) /\
       (well_formed o ->
        stamps o !! new_status = None /\
        forall k v, stamps o !! k = Some v -> ts' !! k = Some v)) /\
  (forall r e w id o,
     orders (db w) !! id = Some o ->
     exists o',
       orders (db (serve r e w)) !! id = Some o' /\
       dom (stamps o) ⊆ dom (stamps o')).
Proof.
  split.
  - intros m e w order_id new_status user body w' Hrun.
    apply update_success_inv in Hrun
      as (o & i & j & _ & Ho & _ & Hi & Hj & Hstep & _ & _ & ->).
    exists o, (set_status new_status (stamped e o new_status) o),
      (stamped e o new_status).
    split; [exact Ho|].
    split; [rewrite (after_update_orders _ _ _ _ _ _ Ho); by case_decide|].
    split; [done|]. split; [done|].
    split; [unfold stamped, stamps; rewrite dom_insert_L;
            apply (comm_L (∪))|].
    split; [rewrite stamped_lookup; by case_decide|].
    split.
    + intros k Hk. rewrite stamped_lookup. case_decide; congruence.
    + intros Hwf. subst i.
      pose proof (well_formed_fresh o j new_status Hwf Hj Hi) as Hfresh.
      split; [exact Hfresh|]. intros k v Hk.
      rewrite stamped_lookup. case_decide; congruence.
  - intros r e w id o Ho.
    destruct (serve_order r e w id o Ho) as (o' & Ho' & _ & Hkeys).
    exists o'. split; [exact Ho'|].
    intros k. rewrite !elem_of_dom. apply Hkeys.
Qed.

Lemma update_status_effect_witness :
  exists o',
    orders (db (update_order_status_at main_py 7 "Accepted" Sample.seller
                  (Sample.env false) (Sample.store "Placed" None)).2) !! 7%Z
    = Some o' /\
    status o' = "Accepted" /\
    stamps o' !! "Accepted" = Some "2024-05-01T10:00:00".
Proof.
  destruct update_status_effect as [Heffect _].
  destruct (Heffect main_py (Sample.env false) (Sample.store "Placed" None)
              7%Z "Accepted" Sample.seller
              (mkStatusUpdated "Order status updated" 7 "Accepted")
              (update_order_status_at main_py 7 "Accepted" Sample.seller
                 (Sample.env false) (Sample.store "Placed" None)).2)
    as (o & o' & ts' & _ & Ho' & Hst & Hts & _ & Hnew & _).
  { vm_compute. reflexivity. }
  exists o'. split; [exact Ho'|]. split; [exact Hst|].
  unfold stamps. rewrite Hts. exact Hnew.
Defined.

(** C3 as stated fails when the stored order already carries a timestamp
    under [new_status]: the update succeeds and that key does not keep its
    previous value. *)
Lemma update_status_effect_counterexample :
  stamps (Sample.order "Placed" (Some {[ "Accepted" := "2023-01-01T00:00:00" ]}))
    !! "Accepted" = Some "2023-01-01T00:00:00" /\
  (update_order_status_at main_py 7 "Accepted" Sample.seller
     (Sample.env false)
     (Sample.store "Placed"
        (Some {[ "Accepted" := "2023-01-01T00:00:00" ]}))).1
  = inr (mkStatusUpdated "Order status updated" 7 "Accepted") /\
  stamps <$>
    (orders
       (db (update_order_status_at main_py 7 "Accepted" Sample.seller
              (Sample.env false)
              (Sample.store "Placed"
                 (Some {[ "Accepted" := "2023-01-01T00:00:00" ]}))).2)
       !! 7%Z)
  = Some {[ "Accepted" := "2024-05-01T10:00:00" ]}.
Proof. split; [|split]; vm_compute; reflexivity. Qed.

(** C8.  An order whose status is "Delivered" cannot be updated: every
    attempt by its seller, whatever [new_status] is, is answered with 400
    and changes nothing.  Along any sequence of requests an order keeps its
    status or moves to a later position of the lifecycle, and keeps every
    status name it has a timestamp for. *)
Theorem delivered_is_terminal :
  (forall m e w order_id o new_status user,
     orders (db w) !! order_id = Some o ->
     status o = "Delivered" ->
     role user = Some "seller" ->
     sub user = seller_id o ->
     let out := update_order_status_at m order_id new_status user e w in
     (exists detail, out.1 = inl (BadRequest detail)) /\ db out.2 = db w) /\
  (forall rs w id o,
     orders (db w) !! id = Some o ->
     exists o',
       orders (db (serve_all rs w)) !! id = Some o' /\
       (status o' = status o \/
        exists i j, status_index (status o) = Some i /\
          status_index (status o') = Some j /\ (i < j)%Z) /\
       dom (stamps o) ⊆ dom (stamps o')).
Proof.
  split.
  - intros m e w order_id o new_status user Ho Hst Hrole Hsub out.
    subst out. apply role_is_true in Hrole. symmetry in Hsub.
    assert (status_index (status o) = Some 3%Z) as Hj by (by rewrite Hst).
    destruct (status_index new_status) as [i|] eqn:Hi.
    + pose proof (status_index_range _ _ Hi) as Hrange.
      rewrite (update_invalid_transition m e w order_id o new_status user
                 i 3) by (done || lia).
      split; [eauto|done].
    + rewrite (update_invalid_status m e w order_id o new_status user)
        by done.
      split; [eauto|done].
  - intros rs w id o Ho.
    destruct (serve_all_order rs w id o Ho) as (o' & Ho' & Hst & Hkeys).
    exists o'. split; [exact Ho'|]. split; [exact Hst|].
    intros k. rewrite !elem_of_dom. apply Hkeys.
Qed.

Lemma delivered_is_terminal_witness :
  (exists detail,
     (update_order_status_at main_py 7 "Delivered" Sample.seller
        (Sample.env false) (Sample.store "Delivered" None)).1
     = inl (BadRequest detail)) /\
  exists o',
    orders
      (db (serve_all
             [(req_update_order_status main_py 7 "Accepted" Sample.seller,
               Sample.env false);
              (req_update_order_status order_tracking_py 7 "Placed"
                 Sample.seller, Sample.env false)]
             (Sample.store "Placed" None))) !! 7%Z = Some o' /\
    (status o' = "Placed" \/
     exists i j, status_index "Placed" = Some i /\
       status_index (status o') = Some j /\ (i < j)%Z).
Proof.
  destruct delivered_is_terminal as [Hterminal Hforward]. split.
  - apply (Hterminal main_py (Sample.env false)
             (Sample.store "Delivered" None) 7%Z
             (Sample.order "Delivered" None) "Delivered" Sample.seller);
      reflexivity.
  - destruct (Hforward
                [(req_update_order_status main_py 7 "Accepted" Sample.seller,
                  Sample.env false);
                 (req_update_order_status order_tracking_py 7 "Placed"
                    Sample.seller, Sample.env false)]
                (Sample.store "Placed" None) 7%Z (Sample.order "Placed" None))
      as (o' & Ho' & Hst & _); [reflexivity|].
    exists o'. split; [exact Ho'|exact Hst].
Defined.

(** C9.  The order handlers of [main.py] and of [order_tracking.py] are the
    same functions: on every input, environment and datastore they return
    the same answer and leave the same datastore and the same gateway
    calls behind. *)
Theorem order_handlers_agree :
  (forall user_id user e w,
     Main.get_orders user_id user e w
     = OrderTracking.get_orders user_id user e w) /\
  (forall order_id new_status user e w,
     Main.update_order_status order_id new_status user e w
     = OrderTracking.update_order_status order_id new_status user e w).
Proof. split; reflexivity. Qed.

(** C10.  The status update checks [new_status] against the list but not
    the stored status.  Looking up the position of the stored status
    returns exactly when that status is one of the four names; when it is
    not, and the earlier checks have passed, the request ends in an
    unhandled [ValueError] and not in any HTTP error of the handler, and
    nothing is written. *)
Theorem stored_status_unvalidated (m : Mount) (e : Env) (w : World)
    (order_id : Z) (o : OrderRow) (new_status : string) (user : User) :
  orders (db w) !! order_id = Some o ->
  role user = Some "seller" ->
  sub user = seller_id o ->
  let out := update_order_status_at m order_id new_status user e w in
  ((exists i, index (ORDER_STATUSES_at m) (status o) e w = (inr i, w))
     <-> status o ∈ ORDER_STATUSES_at m) /\
  (new_status ∉ ORDER_STATUSES_at m ->
     out.1 = inl (BadRequest "Invalid status")) /\
  (new_status ∈ ORDER_STATUSES_at m ->
   status o ∉ ORDER_STATUSES_at m ->
     (exists what, out.1 = inl (ValueError what)) /\
     (forall code detail, out.1 <> inl (HTTPException code detail)) /\
     db out.2 = db w).
Proof.
  intros Ho Hrole Hsub out. subst out.
  apply role_is_true in Hrole. symmetry in Hsub.
  assert (ORDER_STATUSES_at m = Main.ORDER_STATUSES) as -> by by destruct m.
  rewrite <- !status_index_is_Some.
  split; [|split].
  - unfold index. fold (status_index (status o)).
    destruct (status_index (status o)) as [j|]; split.
    + by eexists.
    + by eexists.
    + intros [i Hi]. discriminate.
    + intros [j Hj]. discriminate.
  - intros Hnew. rewrite <- eq_None_not_Some in Hnew.
    by rewrite (update_invalid_status m e w order_id o new_status user).
  - intros [i Hi] Hcur. rewrite <- eq_None_not_Some in Hcur.
    rewrite (update_value_error m e w order_id o new_status user i) by done.
    split; [by eexists|]. split; [|done]. intros code detail. discriminate.
Qed.

Lemma stored_status_unvalidated_witness :
  exists what,
    (update_order_status_at main_py 7 "Placed" Sample.seller
       (Sample.env false) (Sample.store "Cancelled" None)).1
    = inl (ValueError what).
Proof.
  destruct (stored_status_unvalidated main_py (Sample.env false)
              (Sample.store "Cancelled" None) 7%Z
              (Sample.order "Cancelled" None) "Placed" Sample.seller
              eq_refl eq_refl eq_refl) as (_ & _ & Hraise).
  apply Hraise.
  - apply status_index_is_Some. by exists 0%Z.
  - intros Hin. apply status_index_is_Some in Hin as [j Hj].
    vm_compute in Hj. discriminate.
Defined.

(** *** Listing orders *)

Lemma group_items_from its acc id :
  default [] (fold_left add_item its acc !! id)
  = (default [] (acc !! id)
       ++ filter (fun it => item_order_id it = id) its)%list.
Proof.
  revert acc. induction its as [|it its IH]; intros acc; simpl.
  - by rewrite app_nil_r.
  - rewrite IH. unfold add_item at 1. rewrite lookup_insert, filter_cons.
    case_decide as Hid; simpl; [|done].
    subst id. by rewrite <- app_assoc.
Qed.

Lemma group_items_lookup its id :
  default [] (group_items its !! id)
  = filter (fun it => item_order_id it = id) its.
Proof. unfold group_items. by rewrite group_items_from, lookup_empty. Qed.

Lemma filter_filter_in (its : list OrderItem) (ids : list Z) id :
  id ∈ ids ->
  filter (fun it => item_order_id it = id)
    (filter (fun it => item_order_id it ∈ ids) its)
  = filter (fun it => item_order_id it = id) its.
Proof.
  intros Hid. induction its as [|it its IH]; [done|].
  rewrite !filter_cons. case_decide as Hin.
  - rewrite filter_cons. case_decide; by rewrite IH.
  - case_decide as Heq; [|done]. rewrite Heq in Hin. done.
Qed.

Lemma attach_items (d : Supabase) (rows : list (Z * OrderRow)) :
  map (fun o => mkOrder o.1 o.2
         (default []
            (group_items
               (filter (fun it => item_order_id it ∈ map fst rows)
                  (order_items d)) !! o.1))) rows
  = map (fun p => mkOrder p.1 p.2
           (filter (fun it => item_order_id it = p.1) (order_items d))) rows.
Proof.
  apply map_ext_in. intros p Hp.
  rewrite group_items_lookup, filter_filter_in; [done|].
  apply list_elem_of_In, in_map, Hp.
Qed.

Lemma get_orders_listed m e w user_id user c :
  negb (String.eqb (sub user) user_id) && negb (role_is user "seller")
    = false ->
  (role_is user "buyer" = true /\ c = col_buyer_id) \/
  (role_is user "buyer" = false /\ role_is user "seller" = true /\
   c = col_seller_id) ->
  (get_orders_at m user_id user e w).1 = inr (listing c user_id (db w)).
Proof.
  intros Hgate Hrole. unfold listing.
  rewrite <- attach_items.
  at_mount m; rewrite Hgate;
    (destruct Hrole as [[-> ->]|(-> & -> & ->)];
     unfold bind, ret, select_orders, select_items, emit, get_db; simpl;
     destruct (filter _ (map_to_list _)); done).
Qed.

Lemma listing_spec c user_id d (x : Order) :
  x ∈ listing c user_id d <->
  orders d !! order_id x = Some (order_row x) /\
  order_col c (order_row x) = user_id /\
  items x = filter (fun it => item_order_id it = order_id x) (order_items d).
Proof.
  unfold listing. rewrite list_elem_of_fmap. split.
  - intros ([id row] & -> & Hin). apply list_elem_of_filter in Hin as [Hc Hin].
    apply elem_of_map_to_list in Hin. done.
  - intros (Hrow & Hc & Hitems). exists (order_id x, order_row x). split.
    + destruct x. simpl in *. by subst.
    + apply list_elem_of_filter. split; [done|].
      by apply elem_of_map_to_list.
Qed.

Lemma listing_NoDup c user_id d : NoDup (map order_id (listing c user_id d)).
Proof.
  unfold listing. rewrite map_map. simpl.
  apply (NoDup_fmap_fst (filter _ (map_to_list (orders d)))).
  - intros id r1 r2 H1 H2.
    apply list_elem_of_filter in H1 as [_ H1].
    apply list_elem_of_filter in H2 as [_ H2].
    apply elem_of_map_to_list in H1. apply elem_of_map_to_list in H2.
    congruence.
  - apply NoDup_filter, NoDup_map_to_list.
Qed.

Lemma get_orders_gate user user_id :
  negb (String.eqb (sub user) user_id) && negb (role_is user "seller") = false
  <-> sub user = user_id \/ role user = Some "seller".
Proof.
  rewrite andb_false_iff, !negb_false_iff, String.eqb_eq, role_is_true.
  done.
Qed.

(** C7.  Listing the orders of [user_id] is refused with 403 unless the
    caller's id is [user_id] or the caller is a seller.  An allowed buyer
    receives exactly the stored orders whose [buyer_id] is [user_id], an
    allowed seller (whatever [user_id] is) exactly those whose [seller_id]
    is [user_id], each once and with its items attached; an allowed caller
    with any other role is refused with 403. *)
Theorem get_orders_by_role (m : Mount) (e : Env) (w : World)
    (user_id : string) (user : User) :
  let out := get_orders_at m user_id user e w in
  (sub user <> user_id -> role user <> Some "seller" ->
     out.1 = inl (Forbidden "Forbidden")) /\
  (sub user = user_id \/ role user = Some "seller" ->
     (role user = Some "buyer" ->
        exists l, out.1 = inr l /\ NoDup (map order_id l) /\
          forall x, x ∈ l <->
            orders (db w) !! order_id x = Some (order_row x) /\
            buyer_id (order_row x) = user_id /\
            items x = filter (fun it => item_order_id it = order_id x)
                        (order_items (db w))) /\
     (role user = Some "seller" ->
        exists l, out.1 = inr l /\ NoDup (map order_id l) /\
          forall x, x ∈ l <->
            orders (db w) !! order_id x = Some (order_row x) /\
            seller_id (order_row x) = user_id /\
            items x = filter (fun it => item_order_id it = order_id x)
                        (order_items (db w))) /\
     (role user <> Some "buyer" -> role user <> Some "seller" ->
        out.1 = inl (Forbidden "Invalid role"))) /\
  db out.2 = db w.
Proof.
  intros out. subst out. split; [|split].
  - intros Hsub Hrole. apply role_is_false in Hrole.
    apply String.eqb_neq in Hsub.
    at_mount m; by rewrite Hsub, Hrole.
  - intros Hgate. apply get_orders_gate in Hgate. split; [|split].
    + intros Hrole. exists (listing col_buyer_id user_id (db w)).
      split; [|split].
      * apply get_orders_listed; [done|]. left.
        by rewrite role_is_true.
      * apply listing_NoDup.
      * intros x. apply listing_spec.
    + intros Hrole. exists (listing col_seller_id user_id (db w)).
      split; [|split].
      * apply get_orders_listed; [done|]. right.
        rewrite role_is_true, role_is_false. rewrite Hrole.
        repeat split; congruence.
      * apply listing_NoDup.
      * intros x. apply listing_spec.
    + intros Hb Hs. apply role_is_false in Hb, Hs.
      at_mount m; by rewrite Hgate, Hb, Hs.
  - apply get_orders_db.
Qed.

Lemma get_orders_by_role_witness :
  (get_orders_at main_py "b1" Sample.other_seller (Sample.env false)
     SampleOrders.world).1
  = inr [] /\
  (get_orders_at main_py "s1" Sample.buyer (Sample.env false)
     SampleOrders.world).1
  = inl (Forbidden "Forbidden") /\
  exists l,
    (get_orders_at main_py "b1" Sample.buyer (Sample.env false)
       SampleOrders.world).1 = inr l /\
    mkOrder 1 (SampleOrders.row "b1" "s1")
      [mkOrderItem 10 1 "pen" 2 "1.50"; mkOrderItem 12 1 "pad" 1 "2.25"] ∈ l.
Proof.
  split; [vm_compute; reflexivity|]. split.
  - destruct (get_orders_by_role main_py (Sample.env false)
                SampleOrders.world "s1" Sample.buyer) as (Hdeny & _).
    apply Hdeny; simpl; discriminate.
  - destruct (get_orders_by_role main_py (Sample.env false)
                SampleOrders.world "b1" Sample.buyer) as (_ & Hallow & _).
    destruct Hallow as (Hbuyer & _); [left; reflexivity|].
    destruct (Hbuyer eq_refl) as (l & Hl & _ & Hin).
    exists l. split; [exact Hl|]. apply Hin.
    repeat split; vm_compute; reflexivity.
Defined.

(** *** Sending a message *)

Lemma send_message_run e w receiver_id text user :
  Chat.send_message receiver_id text user e w
  = if store_error e then
      (inl (HTTPException 500 "Failed to send message"),
       mkWorld (db w) (calls w ++ send_calls e w receiver_id text user))
    else
      (inr "Message sent",
       mkWorld
         (add_message (db w)
            (mkMessage (next_msg_id (messages (db w))) (sub user) receiver_id
               text (translation e w receiver_id text user) (store_now e)))
         (calls w ++ send_calls e w receiver_id text user)).
Proof.
  unfold Chat.send_message, Chat.translate_text, select_profile,
    insert_message, post, bind, emit, ask, get_db, put_db, ret, raise,
    send_calls, translation, translate_params, sender_lang, receiver_lang.
  simpl.
  destruct (bool_decide _); simpl.
  - destruct (status_code _ =? 200)%Z; destruct (store_error e); simpl;
      by rewrite <- !app_assoc.
  - destruct (store_error e); simpl; by rewrite <- !app_assoc.
Qed.




(** *** Reading a conversation *)

Lemma Query_limit_ok limit e w :
  limit_ok limit ->
  Query "limit" 50 1 (Some 100%Z) limit e w = (inr (default 50%Z limit), w).
Proof.
  unfold limit_ok, Query. destruct limit as [v|]; [|done]. intros H.
  destruct (Z.ltb_spec v 1); [lia|]. destruct (Z.ltb_spec 100 v); [lia|done].
Qed.

Lemma Query_limit_bad limit e w :
  ~ limit_ok limit ->
  Query "limit" 50 1 (Some 100%Z) limit e w
  = (inl (RequestValidationError "limit"), w).
Proof.
  unfold limit_ok, Query. destruct limit as [v|]; [|done]. intros H.
  destruct (Z.ltb_spec v 1); [done|]. destruct (Z.ltb_spec 100 v); [done|].
  lia.
Qed.

Lemma Query_offset_ok offset e w :
  offset_ok offset ->
  Query "offset" 0 0 None offset e w = (inr (default 0%Z offset), w).
Proof.
  unfold offset_ok, Query. destruct offset as [v|]; [|done]. intros H.
  destruct (Z.ltb_spec v 0); [lia|done].
Qed.

Lemma Query_offset_bad offset e w :
  ~ offset_ok offset ->
  Query "offset" 0 0 None offset e w
  = (inl (RequestValidationError "offset"), w).
Proof.
  unfold offset_ok, Query. destruct offset as [v|]; [|done]. intros H.
  destruct (Z.ltb_spec v 0); [done|lia].
Qed.

Lemma get_messages_run e w conversation_id user limit offset :
  limit_ok limit -> offset_ok offset ->
  Chat.get_messages conversation_id user limit offset e w
  = let user_ids := split "_" conversation_id in
    let first := default 0%Z offset in
    let last := (default 0 offset + default 50 limit - 1)%Z in
    let a := nth 0 user_ids "" in
    let b := nth 1 user_ids "" in
    if negb (length user_ids =? 2)%nat then
      (inl (BadRequest "Invalid conversation_id"), w)
    else if negb (contains user_ids (sub user)) then
      (inl (Forbidden "Forbidden"), w)
    else if store_error e then
      (inl (HTTPException 500 "Failed to fetch messages"),
       after_select w a b first last)
    else
      (inr (range first last (thread a b (db w))),
       after_select w a b first last).
Proof.
  intros Hl Hf. unfold Chat.get_messages, bind.
  rewrite (Query_limit_ok _ _ _ Hl), (Query_offset_ok _ _ _ Hf).
  simpl. destruct (negb (_ =? _)%nat); [done|].
  destruct (negb (contains _ _)); [done|].
  unfold select_messages, bind, emit, ask, get_db, ret, raise. simpl.
  by destruct (store_error e).
Qed.

Lemma get_messages_invalid_page e w conversation_id user limit offset :
  ~ (limit_ok limit /\ offset_ok offset) ->
  exists name,
    Chat.get_messages conversation_id user limit offset e w
    = (inl (RequestValidationError name), w).
Proof.
  intros Hbad. unfold Chat.get_messages, bind.
  destruct (decide (limit_ok limit)) as [Hl|Hl].
  - rewrite (Query_limit_ok _ _ _ Hl).
    rewrite Query_offset_bad by tauto. by eexists.
  - rewrite (Query_limit_bad _ _ _ Hl). by eexists.
Qed.

Lemma get_messages_rejected e w conversation_id user limit offset :
  length (split "_" conversation_id) <> 2%nat \/
  sub user ∉ split "_" conversation_id ->
  exists x,
    Chat.get_messages conversation_id user limit offset e w = (inl x, w).
Proof.
  intros Hbad.
  destruct (decide (limit_ok limit /\ offset_ok offset)) as [[Hl Hf]|Hpage].
  - rewrite get_messages_run by done. simpl.
    destruct (Nat.eqb_spec (length (split "_" conversation_id)) 2)
      as [Hlen|Hlen]; simpl; [|by eexists].
    destruct Hbad as [?|Hout]; [done|].
    destruct (contains _ _) eqn:Hin; simpl; [|by eexists].
    by apply contains_elem_of in Hin.
  - destruct (get_messages_invalid_page e w conversation_id user limit
                offset Hpage) as [name ->].
    by eexists.
Qed.

Lemma conversation_filter_spec a b m :
  eval_filter (Chat.conversation_filter a b) m = true <->
  (sender_id m = a /\ receiver_id m = b) \/
  (sender_id m = b /\ receiver_id m = a).
Proof.
  simpl. rewrite orb_true_iff, !andb_true_iff, !String.eqb_eq. done.
Qed.

#[global] Instance ts_le_total : Total ts_le.
Proof. intros m1 m2. unfold ts_le. lia. Qed.

Lemma range_page {A} (l : list A) (first len : Z) :
  range first (first + len - 1) l
  = take (Z.to_nat len) (drop (Z.to_nat first) l).
Proof. unfold range. f_equal. f_equal. lia. Qed.

(** [s.split(sep)] on two separator-free parts joined by the separator. *)
Lemma split_plain sep s : has_char sep s = false -> split sep s = [s].
Proof.
  induction s as [|c s IH]; simpl; [done|].
  intros H. apply orb_false_iff in H as [Hc Hs]. rewrite Hc.
  by rewrite (IH Hs).
Qed.

Lemma split_joined sep a b :
  has_char sep a = false -> has_char sep b = false ->
  split sep (a ++ String sep b) = [a; b].
Proof.
  intros Ha Hb. induction a as [|c a IH]; simpl.
  - by rewrite Ascii.eqb_refl, split_plain.
  - simpl in Ha. apply orb_false_iff in Ha as [Hc Ha]. rewrite Hc.
    by rewrite (IH Ha).
Qed.

(** C5 (as amended).  Listing messages rejects a [conversation_id] that
    does not split at "_" into exactly two components (400 "Invalid
    conversation_id") and a caller who is not one of the two components
    (403 "Forbidden"); in both cases nothing is read from the datastore.
    The two components are not required to differ: when they are equal and
    the caller is that id, the request is served. *)
Theorem get_messages_authorization (e : Env) (w : World)
    (conversation_id : string) (user : User) (limit offset : option Z) :
  let out := Chat.get_messages conversation_id user limit offset e w in
  let user_ids := split "_" conversation_id in
  (length user_ids <> 2%nat \/ sub user ∉ user_ids ->
     exists x, out = (inl x, w)) /\
  (limit_ok limit -> offset_ok offset ->
     (length user_ids <> 2%nat ->
        out.1 = inl (BadRequest "Invalid conversation_id")) /\
     (length user_ids = 2%nat -> sub user ∉ user_ids ->
        out.1 = inl (Forbidden "Forbidden")) /\
     (forall a b, user_ids = [a; b] -> sub user = a \/ sub user = b ->
        store_error e = false ->
        out.1 = inr (range (default 0 offset)
                       (default 0 offset + default 50 limit - 1)
                       (thread a b (db w))))).
Proof.
  intros out user_ids. subst out user_ids. split.
  - apply get_messages_rejected.
  - intros Hl Hf. rewrite get_messages_run by done. simpl.
    split; [|split].
    + intros Hlen. apply Nat.eqb_neq in Hlen. by rewrite Hlen.
    + intros Hlen Hout. apply Nat.eqb_eq in Hlen. rewrite Hlen. simpl.
      destruct (contains _ _) eqn:Hin; [|done].
      by apply contains_elem_of in Hin.
    + intros a b Hids Hsub Herr. rewrite Hids. simpl.
      assert (contains [a; b] (sub user) = true) as ->.
      { apply contains_elem_of. destruct Hsub as [->| ->]; set_solver. }
      simpl. by rewrite Herr.
Qed.

Lemma get_messages_authorization_witness :
  (Chat.get_messages "u1_u2_u3" SampleChat.en_user None None
     SampleChat.env_down SampleChat.world).1
  = inl (BadRequest "Invalid conversation_id") /\
  (Chat.get_messages "u2_u3" SampleChat.en_user None None
     SampleChat.env_down SampleChat.world).1
  = inl (Forbidden "Forbidden").
Proof.
  split.
  - destruct (get_messages_authorization SampleChat.env_down
                SampleChat.world "u1_u2_u3" SampleChat.en_user None None)
      as (_ & Hpage).
    destruct (Hpage I I) as (Hsplit & _).
    apply Hsplit. simpl. lia.
  - destruct (get_messages_authorization SampleChat.env_down
                SampleChat.world "u2_u3" SampleChat.en_user None None)
      as (_ & Hpage).
    destruct (Hpage I I) as (_ & Hcaller & _).
    apply Hcaller; [reflexivity|].
    simpl. rewrite !elem_of_cons, elem_of_nil.
    intros [Heq|[Heq|[]]]; discriminate Heq.
Defined.

(** C5 as stated fails on a [conversation_id] whose two components are
    equal: the caller named by both is served the messages it sent to
    itself. *)
Lemma get_messages_authorization_counterexample :
  split "_" "u1_u1" = ["u1"; "u1"] /\
  (Chat.get_messages "u1_u1" SampleChat.en_user None None
     SampleChat.env_down SampleChat.world).1
  = inr [mkMessage 4 "u1" "u1" "note to self" None 110].
Proof. split; vm_compute; reflexivity. Qed.

(** C6.  For a conversation id that splits into [A] and [B], a caller who
    is one of them, a limit in [1,100] (50 when absent) and an offset at
    least 0 (0 when absent), the answer is the page at positions
    [offset, offset+limit) of the stored messages whose sender and receiver
    are [A],[B] or [B],[A], put in ascending timestamp order; the rows are
    returned as stored.  (The datastore is taken to report no error.) *)
Theorem get_messages_page (e : Env) (w : World) (conversation_id : string)
    (user : User) (limit offset : option Z) (A B : string) :
  split "_" conversation_id = [A; B] ->
  sub user = A \/ sub user = B ->
  limit_ok limit -> offset_ok offset ->
  store_error e = false ->
  exists ordered,
    ordered ≡ₚ filter (fun m => (sender_id m = A /\ receiver_id m = B) \/
                                (sender_id m = B /\ receiver_id m = A))
                 (messages (db w)) /\
    Sorted ts_le ordered /\
    let page := take (Z.to_nat (default 50%Z limit))
                  (drop (Z.to_nat (default 0%Z offset)) ordered) in
    (Chat.get_messages conversation_id user limit offset e w).1 = inr page /\
    (forall i : nat, (i < Z.to_nat (default 50%Z limit))%nat ->
       page !! i = ordered !! (Z.to_nat (default 0%Z offset) + i)%nat) /\
    (length page <= Z.to_nat (default 50%Z limit))%nat /\
    (forall m, m ∈ page -> m ∈ messages (db w)).
Proof.
  intros Hids Hsub Hl Hf Herr. exists (thread A B (db w)).
  assert (thread A B (db w)
          ≡ₚ filter (fun m => (sender_id m = A /\ receiver_id m = B) \/
                              (sender_id m = B /\ receiver_id m = A))
               (messages (db w))) as Hperm.
  { unfold thread. rewrite merge_sort_Permutation.
    erewrite list_filter_iff; [done|].
    intros m. apply conversation_filter_spec. }
  split; [exact Hperm|].
  split; [apply Sorted_merge_sort, _|].
  simpl. split; [|split; [|split]].
  - rewrite get_messages_run by done. simpl. rewrite Hids. simpl.
    assert (contains [A; B] (sub user) = true) as ->.
    { apply contains_elem_of. destruct Hsub as [->| ->]; set_solver. }
    simpl. by rewrite Herr, range_page.
  - intros i Hi. by rewrite lookup_take_lt, lookup_drop.
  - rewrite length_take. lia.
  - intros m Hm. apply subseteq_take, subseteq_drop in Hm.
    rewrite Hperm in Hm. by apply list_elem_of_filter in Hm as [_ Hm].
Qed.

Lemma get_messages_page_witness :
  exists ordered,
    Sorted ts_le ordered /\
    (Chat.get_messages "u1_u2" SampleChat.en_user (Some 1%Z) (Some 1%Z)
       SampleChat.env_down SampleChat.world).1
    = inr (take 1 (drop 1 ordered)).
Proof.
  destruct (get_messages_page SampleChat.env_down SampleChat.world "u1_u2"
              SampleChat.en_user (Some 1%Z) (Some 1%Z) "u1" "u2")
    as (ordered & _ & Hsorted & Hpage & _).
  - reflexivity.
  - left. reflexivity.
  - simpl. lia.
  - simpl. lia.
  - reflexivity.
  - exists ordered. split; [exact Hsorted|exact Hpage].
Defined.

(** * Further properties *)

(** *** One request, one order *)

Lemma serve_order_cases r e w id o :
  orders (db w) !! id = Some o ->
  orders (db (serve r e w)) !! id = Some o \/
  exists m new_status user j,
    r = req_update_order_status m id new_status user /\
    role user = Some "seller" /\ sub user = seller_id o /\
    store_error e = false /\
    status_index (status o) = Some j /\
    status_index new_status = Some (j + 1)%Z /\
    serve r e w = after_update e w id o new_status /\
    orders (db (serve r e w)) !! id
    = Some (set_status new_status (stamped e o new_status) o).
Proof.
  intros Ho.
  destruct r as [m user_id user|m order_id new_status user
                 |receiver text user|conversation_id user limit offset];
    simpl.
  - left. by rewrite get_orders_db.
  - destruct (update_outcome m e w order_id new_status user)
      as [[_ Hdb]|(o' & i & j & Hrole & Ho' & Hown & Hi & Hj & Hstep & Herr
                   & Hout)].
    + left. by rewrite Hdb.
    + rewrite Hout. simpl snd.
      rewrite (after_update_orders _ _ _ _ _ _ Ho').
      case_decide as Hid; [|by left].
      subst order_id. rewrite Ho in Ho'. injection Ho' as <-.
      right. exists m, new_status, user, j. subst i. done.
  - left. by rewrite send_message_orders.
  - left. by rewrite get_messages_db.
Qed.

Lemma serve_order_None r e w id :
  orders (db w) !! id = None -> orders (db (serve r e w)) !! id = None.
Proof.
  intros Ho.
  destruct r as [m user_id user|m order_id new_status user
                 |receiver text user|conversation_id user limit offset];
    simpl.
  - by rewrite get_orders_db.
  - destruct (update_outcome m e w order_id new_status user)
      as [[_ Hdb]|(o' & i & j & _ & Ho' & _ & _ & _ & _ & _ & Hout)].
    + by rewrite Hdb.
    + rewrite Hout. simpl snd.
      rewrite (after_update_orders _ _ _ _ _ _ Ho').
      case_decide; [congruence|done].
  - by rewrite send_message_orders.
  - by rewrite get_messages_db.
Qed.

Lemma serve_tables r e w :
  profiles (db (serve r e w)) = profiles (db w) /\
  order_items (db (serve r e w)) = order_items (db w) /\
  (messages (db (serve r e w)) = messages (db w) \/
   exists receiver text user,
     r = req_send_message receiver text user /\ store_error e = false /\
     messages (db (serve r e w))
     = (messages (db w) ++ [sent_message e w receiver text user])%list).
Proof.
  destruct r as [m user_id user|m order_id new_status user
                 |receiver text user|conversation_id user limit offset];
    simpl.
  - rewrite get_orders_db. auto.
  - destruct (update_outcome m e w order_id new_status user)
      as [[_ Hdb]|(o' & i & j & _ & _ & _ & _ & _ & _ & _ & Hout)].
    + rewrite Hdb. auto.
    + rewrite Hout. simpl. auto.
  - rewrite send_message_run. destruct (store_error e) eqn:Herr; simpl.
    + auto.
    + split; [done|]. split; [done|]. right. by exists receiver, text, user.
  - rewrite get_messages_db. auto.
Qed.

(** *** Status updates: frame, writes, lifecycle *)

(** X1.  An accepted status update touches one row and two of its columns:
    every other order, the tables [profiles], [messages] and [order_items],
    and the [buyer_id], [seller_id] and [created_at] of the updated order
    are as before; the body echoes the order id and the new status. *)
Theorem accepted_update_frame (m : Mount) (e : Env) (w w' : World)
    (order_id : Z) (new_status : string) (user : User)
    (body : StatusUpdated) :
  update_order_status_at m order_id new_status user e w = (inr body, w') ->
  (forall id, id <> order_id -> orders (db w') !! id = orders (db w) !! id) /\
  profiles (db w') = profiles (db w) /\
  messages (db w') = messages (db w) /\
  order_items (db w') = order_items (db w) /\
  body = mkStatusUpdated "Order status updated" order_id new_status /\
  exists o o',
    orders (db w) !! order_id = Some o /\
    orders (db w') !! order_id = Some o' /\
    buyer_id o' = buyer_id o /\ seller_id o' = seller_id o /\
    created_at o' = created_at o.
Proof.
  intros Hrun.
  apply update_success_inv in Hrun
    as (o & i & j & _ & Ho & _ & _ & _ & _ & _ & Hbody & Hw).
  subst w'. split; [|repeat split; try done].
  - intros id Hid. rewrite (after_update_orders _ _ _ _ _ _ Ho).
    case_decide; congruence.
  - exists o, (set_status new_status (stamped e o new_status) o).
    rewrite (after_update_orders _ _ _ _ _ _ Ho).
    case_decide; done.
Qed.

Lemma accepted_update_frame_witness :
  messages
    (db (update_order_status_at main_py 7 "Accepted" Sample.seller
           (Sample.env false) (Sample.store "Placed" None)).2)
  = messages (db (Sample.store "Placed" None)).
Proof.
  destruct (accepted_update_frame main_py (Sample.env false)
              (Sample.store "Placed" None)
              (update_order_status_at main_py 7 "Accepted" Sample.seller
                 (Sample.env false) (Sample.store "Placed" None)).2
              7%Z "Accepted" Sample.seller
              (mkStatusUpdated "Order status updated" 7 "Accepted"))
    as (_ & _ & Hmessages & _).
  - vm_compute. reflexivity.
  - exact Hmessages.
Defined.

Lemma update_calls m e w order_id new_status user :
  let out := update_order_status_at m order_id new_status user e w in
  (calls out.2 = calls w \/
   calls out.2 = (calls w ++ [ev_select_order order_id])%list) /\
  (forall o i j, ~ (role user = Some "seller" /\
                    orders (db w) !! order_id = Some o /\
                    seller_id o = sub user /\
                    status_index new_status = Some i /\
                    status_index (status o) = Some j /\ i = (j + 1)%Z)) \/
  exists o i j,
    (role user = Some "seller" /\
     orders (db w) !! order_id = Some o /\
     seller_id o = sub user /\
     status_index new_status = Some i /\
     status_index (status o) = Some j /\ i = (j + 1)%Z) /\
    calls out.2
    = (calls w ++ [ev_select_order order_id;
                   ev_update_order order_id new_status
                     (stamped e o new_status)])%list.
Proof.
  intros out. subst out.
  destruct (role_is user "seller") eqn:Hrole.
  2:{ left. rewrite update_not_seller by done. split; [by left|].
      intros o i j (Hr & _). apply role_is_false in Hrole. done. }
  destruct (orders (db w) !! order_id) as [o|] eqn:Ho.
  2:{ left. rewrite update_not_found by done. split; [by right|].
      intros o i j (_ & Hx & _). done. }
  destruct (decide (seller_id o = sub user)) as [Hown|Hown].
  2:{ left. rewrite (update_not_owner _ _ _ _ o) by done.
      split; [by right|]. intros o' i j (_ & Hx & Hy & _). congruence. }
  destruct (status_index new_status) as [i|] eqn:Hi.
  2:{ left. rewrite (update_invalid_status _ _ _ _ o) by done.
      split; [by right|]. intros o' i j (_ & _ & _ & Hx & _). done. }
  destruct (status_index (status o)) as [j|] eqn:Hj.
  2:{ left. rewrite (update_value_error _ _ _ _ o _ _ i) by done.
      split; [by right|].
      intros o' i' j (_ & Hx & _ & _ & Hy & _). congruence. }
  destruct (decide (i = (j + 1)%Z)) as [Hstep|Hstep].
  2:{ left. rewrite (update_invalid_transition _ _ _ _ o _ _ i j) by done.
      split; [by right|].
      intros o' i' j' (_ & Hx & _ & Hy & Hz & Hs). congruence. }
  right. exists o, i, j. apply role_is_true in Hrole.
  split; [done|]. apply role_is_true in Hrole.
  rewrite (update_accepted _ _ _ _ o _ _ i j) by done.
  destruct (store_error e); simpl; by rewrite <- app_assoc.
Qed.

(** X2.  A status update issues the write to table [orders] exactly when
    every check has passed (seller role, existing order, own order, listed
    [new_status], single step forward).  Apart from that write the only
    gateway call is the lookup of the order. *)
Theorem write_only_when_accepted (m : Mount) (e : Env) (w : World)
    (order_id : Z) (new_status : string) (user : User) :
  let out := update_order_status_at m order_id new_status user e w in
  exists new,
    calls out.2 = (calls w ++ new)%list /\
    ((exists id s ts, ev_update_order id s ts ∈ new) <->
     exists o i j,
       role user = Some "seller" /\
       orders (db w) !! order_id = Some o /\
       seller_id o = sub user /\
       status_index new_status = Some i /\
       status_index (status o) = Some j /\ i = (j + 1)%Z) /\
    (forall ev, ev ∈ new ->
       ev = ev_select_order order_id \/
       exists ts, ev = ev_update_order order_id new_status ts).
Proof.
  intros out.
  destruct (update_calls m e w order_id new_status user)
    as [[Hcalls Hno]|(o & i & j & Hyes & Hcalls)]; fold out in Hcalls.
  - destruct Hcalls as [Hcalls|Hcalls].
    + exists []. rewrite app_nil_r. split; [done|]. split.
      * split; [intros (? & ? & ? & Hin); by apply elem_of_nil in Hin|].
        intros (o & i & j & H). by destruct (Hno o i j).
      * intros ev Hin. by apply elem_of_nil in Hin.
    + exists [ev_select_order order_id]. split; [done|]. split.
      * split.
        -- intros (? & ? & ? & Hin). apply list_elem_of_singleton in Hin.
           discriminate.
        -- intros (o & i & j & H). by destruct (Hno o i j).
      * intros ev Hin. apply list_elem_of_singleton in Hin. by left.
  - eexists. split; [exact Hcalls|]. split.
    + split; [by exists o, i, j|]. intros _.
      eexists _, _, _. apply elem_of_cons. right. apply elem_of_cons. by left.
    + intros ev Hin. apply elem_of_cons in Hin as [->|Hin]; [by left|].
      apply list_elem_of_singleton in Hin. right. by eexists.
Qed.

Lemma write_only_when_accepted_witness :
  ~ exists id s ts,
      ev_update_order id s ts
        ∈ calls (update_order_status_at main_py 7 "Delivered" Sample.seller
                   (Sample.env false) (Sample.store "Placed" None)).2.
Proof.
  destruct (write_only_when_accepted main_py (Sample.env false)
              (Sample.store "Placed" None) 7%Z "Delivered" Sample.seller)
    as (new & Hcalls & [Hwrite _] & _).
  rewrite Hcalls. simpl. intros Hin.
  destruct (Hwrite Hin) as (o & i & j & _ & Ho & _ & Hi & Hj & Hstep).
  injection Ho as <-. vm_compute in Hi, Hj.
  injection Hi as <-. injection Hj as <-. discriminate Hstep.
Defined.

(** X3.  The whole lifecycle composes: on an order whose status is
    "Placed", its seller's updates to "Accepted", "Out for Delivery" and
    "Delivered", through either mount and with the datastore accepting the
    writes, all succeed; the order ends as "Delivered" with the three
    request times added to its earlier timestamps and nothing else
    changed. *)
Theorem full_lifecycle (m1 m2 m3 : Mount) (e1 e2 e3 : Env) (w : World)
    (order_id : Z) (o : OrderRow) (user : User) :
  orders (db w) !! order_id = Some o ->
  status o = "Placed" ->
  role user = Some "seller" ->
  sub user = seller_id o ->
  store_error e1 = false -> store_error e2 = false ->
  store_error e3 = false ->
  let out1 := update_order_status_at m1 order_id "Accepted" user e1 w in
  let out2 :=
    update_order_status_at m2 order_id "Out for Delivery" user e2 out1.2 in
  let out3 :=
    update_order_status_at m3 order_id "Delivered" user e3 out2.2 in
  (exists b1 b2 b3, out1.1 = inr b1 /\ out2.1 = inr b2 /\ out3.1 = inr b3) /\
  orders (db out3.2) !! order_id
  = Some (mkOrderRow (buyer_id o) (seller_id o) "Delivered"
            (Some (<[ "Delivered" := utcnow_isoformat e3 ]>
                     (<[ "Out for Delivery" := utcnow_isoformat e2 ]>
                        (<[ "Accepted" := utcnow_isoformat e1 ]>
                           (stamps o)))))
            (created_at o)).
Proof.
  intros Ho Hst Hrole Hsub He1 He2 He3 out1 out2 out3.
  apply role_is_true in Hrole. symmetry in Hsub.
  assert (status_index (status o) = Some 0%Z) as Hj by (by rewrite Hst).
  assert (out1 = (inr (mkStatusUpdated "Order status updated" order_id
                         "Accepted"),
                  after_update e1 w order_id o "Accepted")) as H1.
  { subst out1.
    rewrite (update_accepted m1 e1 w order_id o "Accepted" user 1 0)
      by done.
    by rewrite He1. }
  set (o1 := set_status "Accepted" (stamped e1 o "Accepted") o).
  assert (orders (db out1.2) !! order_id = Some o1) as Ho1.
  { rewrite H1. simpl snd. rewrite (after_update_orders _ _ _ _ _ _ Ho).
    by case_decide. }
  assert (out2 = (inr (mkStatusUpdated "Order status updated" order_id
                         "Out for Delivery"),
                  after_update e2 out1.2 order_id o1 "Out for Delivery"))
    as H2.
  { subst out2.
    rewrite (update_accepted m2 e2 out1.2 order_id o1 "Out for Delivery"
               user 2 1) by done.
    by rewrite He2. }
  set (o2 := set_status "Out for Delivery"
               (stamped e2 o1 "Out for Delivery") o1).
  assert (orders (db out2.2) !! order_id = Some o2) as Ho2.
  { rewrite H2. simpl snd. rewrite (after_update_orders _ _ _ _ _ _ Ho1).
    by case_decide. }
  assert (out3 = (inr (mkStatusUpdated "Order status updated" order_id
                         "Delivered"),
                  after_update e3 out2.2 order_id o2 "Delivered")) as H3.
  { subst out3.
    rewrite (update_accepted m3 e3 out2.2 order_id o2 "Delivered" user 3 2)
      by done.
    by rewrite He3. }
  split.
  - rewrite H1, H2, H3. by eexists _, _, _.
  - rewrite H3. simpl snd. rewrite (after_update_orders _ _ _ _ _ _ Ho2).
    by case_decide.
Qed.

Lemma full_lifecycle_witness :
  status <$>
    (orders
       (db (update_order_status_at main_py 7 "Delivered" Sample.seller
              (Sample.env false)
              (update_order_status_at order_tracking_py 7 "Out for Delivery"
                 Sample.seller (Sample.env false)
                 (update_order_status_at main_py 7 "Accepted" Sample.seller
                    (Sample.env false) (Sample.store "Placed" None)).2).2).2)
       !! 7%Z)
  = Some "Delivered".
Proof.
  destruct (full_lifecycle main_py order_tracking_py main_py
              (Sample.env false) (Sample.env false) (Sample.env false)
              (Sample.store "Placed" None) 7%Z (Sample.order "Placed" None)
              Sample.seller eq_refl eq_refl eq_refl eq_refl eq_refl eq_refl
              eq_refl) as [_ Hend].
  rewrite Hend. reflexivity.
Defined.

(** X4.  A duplicate submission is refused: once a status update has been
    accepted, the same update sent again (through either mount, at any
    time) is answered with 400 "Invalid status transition" and changes
    nothing. *)
Theorem repeated_update_rejected (m m' : Mount) (e e' : Env) (w w' : World)
    (order_id : Z) (new_status : string) (user : User)
    (body : StatusUpdated) :
  update_order_status_at m order_id new_status user e w = (inr body, w') ->
  (update_order_status_at m' order_id new_status user e' w').1
    = inl (BadRequest "Invalid status transition") /\
  db (update_order_status_at m' order_id new_status user e' w').2 = db w'.
Proof.
  intros Hrun.
  apply update_success_inv in Hrun
    as (o & i & j & Hrole & Ho & Hown & Hi & Hj & Hstep & _ & _ & Hw).
  apply role_is_true in Hrole.
  assert (orders (db w') !! order_id
          = Some (set_status new_status (stamped e o new_status) o)) as Ho'.
  { subst w'. rewrite (after_update_orders _ _ _ _ _ _ Ho). by case_decide. }
  rewrite (update_invalid_transition m' e' w' order_id _ new_status user i i
             Hrole Ho' Hown Hi Hi) by lia.
  done.
Qed.

Lemma repeated_update_rejected_witness :
  (update_order_status_at order_tracking_py 7 "Accepted" Sample.seller
     (Sample.env false)
     (update_order_status_at main_py 7 "Accepted" Sample.seller
        (Sample.env false) (Sample.store "Placed" None)).2).1
  = inl (BadRequest "Invalid status transition").
Proof.
  apply (repeated_update_rejected main_py order_tracking_py
           (Sample.env false) (Sample.env false)
           (Sample.store "Placed" None) _ 7%Z "Accepted" Sample.seller
           (mkStatusUpdated "Order status updated" 7 "Accepted")).
  vm_compute. reflexivity.
Defined.

(** *** Invariants of request sequences *)

Lemma serve_all_cons r e rs w :
  serve_all ((r, e) :: rs) w = serve_all rs (serve r e w).
Proof. reflexivity. Qed.

Lemma accepts_inv id r e w :
  accepts id r e w = true ->
  exists m new_status user body,
    r = req_update_order_status m id new_status user /\
    update_order_status_at m id new_status user e w
    = (inr body, serve r e w).
Proof.
  destruct r as [|m order_id new_status user| |]; simpl; try done.
  intros H. apply andb_true_iff in H as [Hid Hok].
  apply bool_decide_eq_true in Hid. subst order_id.
  destruct (update_order_status_at m id new_status user e w)
    as [[x|body] w'] eqn:Hrun; simpl in *; [done|].
  by exists m, new_status, user, body.
Qed.

(** X5.  An order can be moved at most three times: along any sequence of
    requests, an order at position [j] of the lifecycle sees at most
    [3 - j] accepted status updates, and an order whose stored status is
    not a lifecycle name sees none. *)
Theorem at_most_three_updates (rs : list (Request * Env)) (w : World)
    (id : Z) (o : OrderRow) :
  orders (db w) !! id = Some o ->
  (forall j, status_index (status o) = Some j ->
     (accepted_updates id rs w <= Z.to_nat (3 - j))%nat) /\
  (status_index (status o) = None -> accepted_updates id rs w = 0%nat).
Proof.
  revert w o. induction rs as [|[r e] rs IH]; intros w o Ho.
  { split; [intros; simpl; lia|done]. }
  simpl. split.
  - intros j Hj. pose proof (status_index_range _ _ Hj) as Hrange.
    destruct (accepts id r e w) eqn:Hacc.
    + apply accepts_inv in Hacc as (m & new_status & user & body & -> & Hrun).
      apply update_success_inv in Hrun
        as (o' & i & j' & _ & Ho' & _ & Hi & Hj' & Hstep & _ & _ & Hw).
      rewrite Ho in Ho'. injection Ho' as <-.
      rewrite Hj in Hj'. injection Hj' as <-. subst i.
      pose proof (status_index_range _ _ Hi) as Hrange'.
      assert (orders (db (serve (req_update_order_status m id new_status
                                   user) e w)) !! id
              = Some (set_status new_status (stamped e o new_status) o))
        as Hnext.
      { rewrite Hw, (after_update_orders _ _ _ _ _ _ Ho). by case_decide. }
      destruct (IH _ _ Hnext) as [Hbound _].
      specialize (Hbound (j + 1)%Z Hi). lia.
    + destruct (serve_order_cases r e w id o Ho)
        as [Hsame|(m & new_status & user & j' & _ & _ & _ & _ & Hj' & Hi & _
                   & Hnext)].
      * destruct (IH _ _ Hsame) as [Hbound _]. specialize (Hbound j Hj). lia.
      * rewrite Hj in Hj'. injection Hj' as <-.
        pose proof (status_index_range _ _ Hi) as Hrange'.
        destruct (IH _ _ Hnext) as [Hbound _].
        specialize (Hbound (j + 1)%Z Hi). lia.
  - intros Hnone.
    destruct (accepts id r e w) eqn:Hacc.
    + apply accepts_inv in Hacc as (m & new_status & user & body & -> & Hrun).
      apply update_success_inv in Hrun
        as (o' & i & j' & _ & Ho' & _ & _ & Hj' & _).
      rewrite Ho in Ho'. injection Ho' as <-. congruence.
    + destruct (serve_order_cases r e w id o Ho)
        as [Hsame|(m & new_status & user & j' & _ & _ & _ & _ & Hj' & _)];
        [|congruence].
      destruct (IH _ _ Hsame) as [_ Hzero]. by rewrite Hzero.
Qed.

Lemma at_most_three_updates_witness :
  (accepted_updates 7
     [(req_update_order_status main_py 7 "Out for Delivery" Sample.seller,
       Sample.env false);
      (req_update_order_status main_py 7 "Delivered" Sample.seller,
       Sample.env false);
      (req_update_order_status main_py 7 "Delivered" Sample.seller,
       Sample.env false)]
     (Sample.store "Accepted" None) <= 2)%nat.
Proof.
  destruct (at_most_three_updates
              [(req_update_order_status main_py 7 "Out for Delivery"
                  Sample.seller, Sample.env false);
               (req_update_order_status main_py 7 "Delivered" Sample.seller,
                Sample.env false);
               (req_update_order_status main_py 7 "Delivered" Sample.seller,
                Sample.env false)]
              (Sample.store "Accepted" None) 7%Z
              (Sample.order "Accepted" None) eq_refl) as [Hbound _].
  exact (Hbound 1%Z eq_refl).
Defined.

(** X6.  Along any sequence of requests a lifecycle status stays a
    lifecycle status, and an order whose stored status is not a lifecycle
    name is frozen: its row is never changed by any request. *)
Theorem listed_status_invariant (rs : list (Request * Env)) (w : World)
    (id : Z) (o : OrderRow) :
  orders (db w) !! id = Some o ->
  (status o ∈ Main.ORDER_STATUSES ->
     exists o', orders (db (serve_all rs w)) !! id = Some o' /\
       status o' ∈ Main.ORDER_STATUSES) /\
  (status o ∉ Main.ORDER_STATUSES ->
     orders (db (serve_all rs w)) !! id = Some o).
Proof.
  revert w o. induction rs as [|[r e] rs IH]; intros w o Ho.
  { split; [intros; by exists o|done]. }
  rewrite serve_all_cons.
  destruct (serve_order_cases r e w id o Ho)
    as [Hsame|(m & new_status & user & j & _ & _ & _ & _ & Hj & Hi & _
               & Hnext)].
  - apply (IH _ _ Hsame).
  - split.
    + intros _. apply (IH _ _ Hnext). simpl.
      apply status_index_is_Some. by eexists.
    + intros Hout. exfalso. apply Hout, status_index_is_Some. by eexists.
Qed.

Lemma listed_status_invariant_witness :
  orders
    (db (serve_all
           [(req_update_order_status main_py 7 "Placed" Sample.seller,
             Sample.env false);
            (req_update_order_status main_py 7 "Accepted" Sample.seller,
             Sample.env false)]
           (Sample.store "Cancelled" None))) !! 7%Z
  = Some (Sample.order "Cancelled" None).
Proof.
  destruct (listed_status_invariant
              [(req_update_order_status main_py 7 "Placed" Sample.seller,
                Sample.env false);
               (req_update_order_status main_py 7 "Accepted" Sample.seller,
                Sample.env false)]
              (Sample.store "Cancelled" None) 7%Z
              (Sample.order "Cancelled" None) eq_refl) as [_ Hfrozen].
  apply Hfrozen. intros Hin. apply status_index_is_Some in Hin as [j Hj].
  vm_compute in Hj. discriminate.
Defined.

(** X7.  An order as the schema creates it ("Placed", timestamps null or
    empty) is well formed, and every request sequence keeps every order
    well formed: its status is a lifecycle name and each timestamp it
    carries belongs to a position it has reached. *)
Theorem well_formed_invariant :
  (forall b s c ts, ts = None \/ ts = Some ∅ ->
     well_formed (mkOrderRow b s "Placed" ts c)) /\
  (forall rs w id o,
     orders (db w) !! id = Some o -> well_formed o ->
     exists o', orders (db (serve_all rs w)) !! id = Some o' /\
       well_formed o').
Proof.
  split.
  - intros b s c ts Hts. exists 0%Z. split; [done|].
    intros k Hk. unfold stamps in Hk. simpl in Hk.
    destruct Hts as [-> | ->]; simpl in Hk; rewrite lookup_empty in Hk;
      by destruct Hk.
  - intros rs. induction rs as [|[r e] rs IH]; intros w id o Ho Hwf.
    + by exists o.
    + rewrite serve_all_cons.
      destruct (serve_well_formed r e w id o Ho Hwf) as (o1 & Ho1 & Hwf1).
      by apply (IH _ _ o1).
Qed.

Lemma well_formed_invariant_witness :
  exists o',
    orders
      (db (serve_all
             [(req_update_order_status main_py 7 "Accepted" Sample.seller,
               Sample.env false)]
             (Sample.store "Placed" None))) !! 7%Z = Some o' /\
    well_formed o'.
Proof.
  destruct well_formed_invariant as [Hfresh Hkept].
  apply (Hkept _ _ 7%Z (Sample.order "Placed" None)); [reflexivity|].
  apply Hfresh. by left.
Defined.

(** X8.  Only its seller changes an order: a sequence of requests that
    contains no status update of order [id] made by a caller who has role
    "seller" and whose id is the order's [seller_id] leaves the row of
    [id] exactly as it was. *)
Theorem only_the_seller_changes_an_order (rs : list (Request * Env))
    (w : World) (id : Z) (o : OrderRow) :
  orders (db w) !! id = Some o ->
  Forall (fun re => ~ by_seller_of id (seller_id o) re.1) rs ->
  orders (db (serve_all rs w)) !! id = Some o.
Proof.
  revert w. induction rs as [|[r e] rs IH]; intros w Ho Hrs; [done|].
  rewrite serve_all_cons. apply Forall_cons in Hrs as [Hr Hrs].
  destruct (serve_order_cases r e w id o Ho)
    as [Hsame|(m & new_status & user & j & -> & Hrole & Hsub & _)].
  - by apply IH.
  - exfalso. apply Hr. simpl. done.
Qed.

Lemma only_the_seller_changes_an_order_witness :
  orders
    (db (serve_all
           [(req_update_order_status main_py 7 "Accepted"
               Sample.other_seller, Sample.env false);
            (req_update_order_status main_py 7 "Accepted" Sample.buyer,
             Sample.env false);
            (req_send_message "s1" "any news?" Sample.buyer,
             Sample.env false)]
           (Sample.store "Placed" None))) !! 7%Z
  = Some (Sample.order "Placed" None).
Proof.
  apply (only_the_seller_changes_an_order _ (Sample.store "Placed" None) 7%Z
           (Sample.order "Placed" None)); [reflexivity|].
  repeat constructor; simpl.
  - intros (_ & _ & Hsub). discriminate Hsub.
  - intros (_ & Hrole & _). discriminate Hrole.
  - intros [].
Defined.

(** X9.  No request creates or deletes an order, reassigns one, or touches
    the tables it only reads: along any sequence the set of order ids, each
    order's [buyer_id], [seller_id] and [created_at], and the tables
    [profiles] and [order_items] stay as they were. *)
Theorem ownership_and_tables_unchanged (rs : list (Request * Env))
    (w : World) :
  profiles (db (serve_all rs w)) = profiles (db w) /\
  order_items (db (serve_all rs w)) = order_items (db w) /\
  (forall id, orders (db w) !! id = None ->
     orders (db (serve_all rs w)) !! id = None) /\
  (forall id o, orders (db w) !! id = Some o ->
     exists o', orders (db (serve_all rs w)) !! id = Some o' /\
       buyer_id o' = buyer_id o /\ seller_id o' = seller_id o /\
       created_at o' = created_at o).
Proof.
  revert w. induction rs as [|[r e] rs IH]; intros w.
  { repeat split; try done. intros id o Ho. by exists o. }
  rewrite serve_all_cons.
  destruct (IH (serve r e w)) as (Hp & Hi & Hnone & Hsome).
  destruct (serve_tables r e w) as (Hp1 & Hi1 & _).
  split; [congruence|]. split; [congruence|]. split.
  - intros id Ho. by apply Hnone, serve_order_None.
  - intros id o Ho.
    destruct (serve_order_cases r e w id o Ho)
      as [Hsame|(m & new_status & user & j & _ & _ & _ & _ & _ & _ & _
                 & Hnext)].
    + by apply Hsome.
    + destruct (Hsome _ _ Hnext) as (o' & Ho' & Hb & Hs & Hc).
      by exists o'.
Qed.

Lemma ownership_and_tables_unchanged_witness :
  orders
    (db (serve_all
           [(req_update_order_status main_py 8 "Accepted" Sample.seller,
             Sample.env false)]
           (Sample.store "Placed" None))) !! 8%Z = None.
Proof.
  destruct (ownership_and_tables_unchanged
              [(req_update_order_status main_py 8 "Accepted" Sample.seller,
                Sample.env false)]
              (Sample.store "Placed" None)) as (_ & _ & Hnone & _).
  apply Hnone. reflexivity.
Defined.

(** X10.  Table [messages] is append-only: along any sequence of requests
    the stored messages are kept, in order and unchanged, and every row
    that is added comes from a [send_message] request and names its caller
    as sender. *)
Theorem messages_append_only (rs : list (Request * Env)) (w : World) :
  exists added,
    messages (db (serve_all rs w)) = (messages (db w) ++ added)%list /\
    forall m, m ∈ added ->
      exists receiver text user e,
        (req_send_message receiver text user, e) ∈ rs /\
        sender_id m = sub user /\ receiver_id m = receiver /\
        message m = text.
Proof.
  revert w. induction rs as [|[r e] rs IH]; intros w.
  { exists []. split; [by rewrite app_nil_r|].
    intros m Hm. by apply elem_of_nil in Hm. }
  rewrite serve_all_cons.
  destruct (IH (serve r e w)) as (added & Hadded & Hfrom).
  destruct (serve_tables r e w)
    as (_ & _ & [Hsame|(receiver & text & user & -> & _ & Hsent)]).
  - exists added. rewrite Hadded, Hsame. split; [done|].
    intros m Hm. destruct (Hfrom m Hm) as (rc & tx & u & e' & Hin & Hm').
    exists rc, tx, u, e'. split; [by right|done].
  - exists (sent_message e w receiver text user :: added).
    rewrite Hadded, Hsent, <- app_assoc. split; [done|].
    intros m Hm. apply elem_of_cons in Hm as [->|Hm].
    + exists receiver, text, user, e. split; [by left|done].
    + destruct (Hfrom m Hm) as (rc & tx & u & e' & Hin & Hm').
      exists rc, tx, u, e'. split; [by right|done].
Qed.

Lemma messages_append_only_witness :
  exists added,
    messages
      (db (serve_all
             [(req_send_message "u2" "bye" SampleChat.en_user,
               SampleChat.env_down);
              (req_get_messages "u1_u2" SampleChat.en_user None None,
               SampleChat.env_down)]
             SampleChat.world))
    = (messages (db SampleChat.world) ++ added)%list.
Proof.
  destruct (messages_append_only
              [(req_send_message "u2" "bye" SampleChat.en_user,
                SampleChat.env_down);
               (req_get_messages "u1_u2" SampleChat.en_user None None,
                SampleChat.env_down)]
              SampleChat.world) as (added & Hadded & _).
  by exists added.
Defined.

(** *** Listing orders: grouping and disclosure *)

Lemma group_items_from_is_Some its acc id :
  is_Some (fold_left add_item its acc !! id) <->
  is_Some (acc !! id) \/ exists it, it ∈ its /\ item_order_id it = id.
Proof.
  revert acc. induction its as [|it its IH]; intros acc; simpl.
  - split; [by left|]. intros [H|(it & Hin & _)]; [done|].
    by apply elem_of_nil in Hin.
  - rewrite IH. unfold add_item at 1. rewrite lookup_insert.
    case_decide as Hid.
    + split.
      * intros _. right. exists it. split; [by left|done].
      * intros _. left. by eexists.
    + split.
      * intros [H|(it' & Hin & Hit')]; [by left|].
        right. exists it'. split; [by right|done].
      * intros [H|(it' & Hin & Hit')]; [by left|].
        apply elem_of_cons in Hin as [->|Hin]; [done|].
        right. by exists it'.
Qed.

(** X11.  The grouping of fetched items by [order_id]: the list stored
    under an id is exactly the items with that [order_id], in the order
    they were fetched; an id is a key exactly when some item has it, so no
    group is empty; and an item appears under its own [order_id] only. *)
Theorem group_items_groups (its : list OrderItem) (id : Z) :
  default [] (group_items its !! id)
    = filter (fun it => item_order_id it = id) its /\
  (is_Some (group_items its !! id)
     <-> exists it, it ∈ its /\ item_order_id it = id) /\
  (forall l, group_items its !! id = Some l ->
     l <> [] /\ forall it, it ∈ l <-> it ∈ its /\ item_order_id it = id).
Proof.
  assert (is_Some (group_items its !! id)
          <-> exists it, it ∈ its /\ item_order_id it = id) as Hkey.
  { unfold group_items. rewrite group_items_from_is_Some, lookup_empty.
    split; [intros [[? [=]]|H]; done|by right]. }
  split; [apply group_items_lookup|]. split; [exact Hkey|].
  intros l Hl. pose proof (group_items_lookup its id) as Hgroup.
  rewrite Hl in Hgroup. simpl in Hgroup. subst l. split.
  - destruct Hkey as [Hkey _].
    destruct Hkey as (it & Hin & Hit); [by eexists|].
    intros Hnil.
    assert (it ∈ filter (fun it => item_order_id it = id) its) as Hin'
      by (by apply list_elem_of_filter).
    rewrite Hnil in Hin'. by apply elem_of_nil in Hin'.
  - intros it. rewrite list_elem_of_filter. tauto.
Qed.

Lemma group_items_groups_witness :
  group_items (order_items (db SampleOrders.world)) !! 2%Z = None /\
  default [] (group_items (order_items (db SampleOrders.world)) !! 1%Z)
  = [mkOrderItem 10 1 "pen" 2 "1.50"; mkOrderItem 12 1 "pad" 1 "2.25"].
Proof.
  split.
  - destruct (group_items_groups (order_items (db SampleOrders.world)) 2%Z)
      as (_ & [Hkey _] & _).
    destruct (group_items _ !! 2%Z) eqn:E; [|done].
    destruct Hkey as (it & Hin & Hit); [by eexists|].
    simpl in Hin. rewrite !elem_of_cons, elem_of_nil in Hin.
    destruct Hin as [->|[->|[->|[]]]]; discriminate Hit.
  - destruct (group_items_groups (order_items (db SampleOrders.world)) 1%Z)
      as (Hgroup & _).
    rewrite Hgroup. reflexivity.
Defined.

(** X12.  For a caller with role "seller" the listing does not depend on
    who the caller is: any two sellers asking for the same [user_id] get
    the same answer, namely the stored orders whose [seller_id] is
    [user_id], each once and with its items. *)
Theorem seller_listing_ignores_caller (m1 m2 : Mount) (e1 e2 : Env)
    (w : World) (user_id : string) (u1 u2 : User) :
  role u1 = Some "seller" -> role u2 = Some "seller" ->
  exists l,
    (get_orders_at m1 user_id u1 e1 w).1 = inr l /\
    (get_orders_at m2 user_id u2 e2 w).1 = inr l /\
    NoDup (map order_id l) /\
    forall x, x ∈ l <->
      orders (db w) !! order_id x = Some (order_row x) /\
      seller_id (order_row x) = user_id /\
      items x = filter (fun it => item_order_id it = order_id x)
                  (order_items (db w)).
Proof.
  intros H1 H2. exists (listing col_seller_id user_id (db w)).
  split; [|split; [|split]].
  - apply get_orders_listed.
    + apply get_orders_gate. by right.
    + right. rewrite role_is_false, role_is_true, H1.
      repeat split; congruence.
  - apply get_orders_listed.
    + apply get_orders_gate. by right.
    + right. rewrite role_is_false, role_is_true, H2.
      repeat split; congruence.
  - apply listing_NoDup.
  - intros x. apply listing_spec.
Qed.

Lemma seller_listing_ignores_caller_witness :
  (get_orders_at main_py "s1" Sample.seller (Sample.env false)
     SampleOrders.world).1
  = (get_orders_at order_tracking_py "s1" Sample.other_seller
       (Sample.env true) SampleOrders.world).1 /\
  exists l,
    (get_orders_at order_tracking_py "s1" Sample.other_seller
       (Sample.env true) SampleOrders.world).1 = inr l /\
    mkOrder 2 (SampleOrders.row "b2" "s1") [] ∈ l.
Proof.
  destruct (seller_listing_ignores_caller main_py order_tracking_py
              (Sample.env false) (Sample.env true) SampleOrders.world "s1"
              Sample.seller Sample.other_seller eq_refl eq_refl)
    as (l & Hfirst & Hsecond & _ & Hin).
  split; [by rewrite Hfirst, Hsecond|].
  exists l. split; [exact Hsecond|]. apply Hin.
  repeat split; vm_compute; reflexivity.
Defined.

Lemma get_orders_success_inv m e w user_id user l :
  (get_orders_at m user_id user e w).1 = inr l ->
  (role user = Some "buyer" /\ sub user = user_id /\
   l = listing col_buyer_id user_id (db w)) \/
  (role user = Some "seller" /\ l = listing col_seller_id user_id (db w)).
Proof.
  intros Hrun.
  destruct (negb (String.eqb (sub user) user_id)
            && negb (role_is user "seller")) eqn:Hgate.
  { exfalso. revert Hrun. at_mount m; by rewrite Hgate. }
  destruct (role_is user "buyer") eqn:Hb.
  - rewrite (get_orders_listed m e w user_id user col_buyer_id Hgate)
      in Hrun by (by left).
    injection Hrun as <-. left. apply role_is_true in Hb.
    apply get_orders_gate in Hgate as [Hsub|Hs]; [done|congruence].
  - destruct (role_is user "seller") eqn:Hs.
    + assert (negb (String.eqb (sub user) user_id)
              && negb (role_is user "seller") = false) as Hgate'
        by (by rewrite Hs, andb_false_r).
      rewrite (get_orders_listed m e w user_id user col_seller_id Hgate')
        in Hrun by (by right).
      injection Hrun as <-. right. by apply role_is_true in Hs.
    + exfalso. revert Hrun. at_mount m; by rewrite Hs, Hb, Hgate.
Qed.

(** X13.  What a listing can disclose: every order returned is a stored
    order in which [user_id] is the buyer or the seller, and a caller with
    role "buyer" only ever receives orders it placed itself. *)
Theorem listing_discloses_related_orders (m : Mount) (e : Env) (w : World)
    (user_id : string) (user : User) (l : list Order) :
  (get_orders_at m user_id user e w).1 = inr l ->
  forall x, x ∈ l ->
    orders (db w) !! order_id x = Some (order_row x) /\
    (buyer_id (order_row x) = user_id \/ seller_id (order_row x) = user_id) /\
    (role user = Some "buyer" -> buyer_id (order_row x) = sub user).
Proof.
  intros Hrun x Hx.
  apply get_orders_success_inv in Hrun
    as [(Hrole & Hsub & ->)|(Hrole & ->)];
    apply listing_spec in Hx as (Hrow & Hcol & _); simpl in Hcol.
  - split; [done|]. split; [by left|]. intros _. congruence.
  - split; [done|]. split; [by right|]. intros Hb. congruence.
Qed.

Lemma listing_discloses_related_orders_witness :
  orders (db SampleOrders.world) !! 3%Z = Some (SampleOrders.row "b1" "s2") /\
  buyer_id (SampleOrders.row "b1" "s2") = sub Sample.buyer.
Proof.
  destruct (listing_discloses_related_orders main_py (Sample.env false)
              SampleOrders.world "b1" Sample.buyer
              (listing col_buyer_id "b1" (db SampleOrders.world)))
    with (x := mkOrder 3 (SampleOrders.row "b1" "s2")
                 [mkOrderItem 11 3 "ink" 1 "4.00"])
    as (Hstored & _ & Hown).
  - vm_compute. reflexivity.
  - apply listing_spec. repeat split; vm_compute; reflexivity.
  - split; [exact Hstored|exact (Hown eq_refl)].
Defined.

(** *** Splitting a conversation id *)

Lemma split_nonempty sep s : split sep s <> [].
Proof.
  destruct s as [|c s]; simpl; [done|].
  destruct (Ascii.eqb c sep); [done|]. by destruct (split sep s).
Qed.

Lemma split_length sep s : length (split sep s) = S (count_char sep s).
Proof.
  induction s as [|c s IH]; simpl; [done|].
  destruct (Ascii.eqb c sep); simpl; [by rewrite IH|].
  destruct (split sep s) eqn:E; [by apply split_nonempty in E|].
  simpl in *. done.
Qed.

Lemma split_join sep s : join sep (split sep s) = s.
Proof.
  induction s as [|c s IH]; simpl; [done|].
  destruct (Ascii.eqb_spec c sep) as [->|Hc].
  - destruct (split sep s) eqn:E; [by apply split_nonempty in E|].
    simpl in *. by rewrite IH.
  - destruct (split sep s) as [|h t] eqn:E; [by apply split_nonempty in E|].
    simpl in *. destruct t; simpl in *; by rewrite <- IH.
Qed.

Lemma split_parts_plain sep s part :
  part ∈ split sep s -> has_char sep part = false.
Proof.
  revert part. induction s as [|c s IH]; intros part; simpl.
  - intros Hin. apply list_elem_of_singleton in Hin. by subst.
  - destruct (Ascii.eqb c sep) eqn:Hc.
    + intros Hin. apply elem_of_cons in Hin as [->|Hin]; [done|].
      by apply IH.
    + destruct (split sep s) as [|h t] eqn:E;
        [by apply split_nonempty in E|].
      intros Hin. apply elem_of_cons in Hin as [->|Hin].
      * simpl. rewrite Hc. simpl. apply IH. by left.
      * apply IH. by right.
Qed.

Lemma count_char_app c a b :
  count_char c (a ++ b) = (count_char c a + count_char c b)%nat.
Proof. induction a as [|c' a IH]; simpl; [done|]. rewrite IH. lia. Qed.

Lemma has_char_count c s : has_char c s = true <-> (0 < count_char c s)%nat.
Proof.
  induction s as [|c' s IH]; simpl; [split; [done|lia]|].
  destruct (Ascii.eqb c' c); simpl; [split; [lia|done]|].
  by rewrite IH.
Qed.

(** X14.  [split] cuts at every separator and loses nothing: the parts
    joined by the separator give back the string, no part contains the
    separator, and there is one part more than there are separators. *)
Theorem split_round_trip (sep : ascii) (s : string) :
  join sep (split sep s) = s /\
  (forall part, part ∈ split sep s -> has_char sep part = false) /\
  length (split sep s) = S (count_char sep s).
Proof.
  split; [apply split_join|].
  split; [apply split_parts_plain|apply split_length].
Qed.

Lemma split_round_trip_witness :
  join "_" (split "_" "u1_u2") = "u1_u2" /\
  has_char "_" "u2" = false.
Proof.
  destruct (split_round_trip "_" "u1_u2") as (Hjoin & Hplain & _).
  split; [exact Hjoin|]. apply Hplain. simpl. right. left.
Defined.

(** *** Reading a conversation: what is served and to whom *)

Lemma get_messages_success_inv e w conversation_id user limit offset page :
  (Chat.get_messages conversation_id user limit offset e w).1 = inr page ->
  limit_ok limit /\ offset_ok offset /\ store_error e = false /\
  exists a b,
    split "_" conversation_id = [a; b] /\
    (sub user = a \/ sub user = b) /\
    page = take (Z.to_nat (default 50%Z limit))
             (drop (Z.to_nat (default 0%Z offset)) (thread a b (db w))).
Proof.
  intros Hrun.
  destruct (decide (limit_ok limit /\ offset_ok offset)) as [[Hl Hf]|Hpage].
  2:{ destruct (get_messages_invalid_page e w conversation_id user limit
                  offset Hpage) as [name Hbad].
      rewrite Hbad in Hrun. discriminate. }
  rewrite get_messages_run in Hrun by done. simpl in Hrun.
  destruct (split "_" conversation_id) as [|a [|b [|c rest]]] eqn:Hsplit;
    simpl in Hrun; try discriminate.
  destruct (contains [a; b] (sub user)) eqn:Hin; simpl in Hrun;
    [|discriminate].
  destruct (store_error e) eqn:Herr; simpl in Hrun; [discriminate|].
  injection Hrun as <-. rewrite range_page.
  split; [done|]. split; [done|]. split; [done|].
  exists a, b. split; [done|]. split; [|done].
  apply contains_elem_of in Hin.
  rewrite !elem_of_cons, elem_of_nil in Hin. tauto.
Qed.

Lemma get_messages_served e w conversation_id user limit offset a b :
  split "_" conversation_id = [a; b] ->
  sub user = a \/ sub user = b ->
  limit_ok limit -> offset_ok offset -> store_error e = false ->
  (Chat.get_messages conversation_id user limit offset e w).1
  = inr (take (Z.to_nat (default 50%Z limit))
           (drop (Z.to_nat (default 0%Z offset)) (thread a b (db w)))).
Proof.
  intros Hids Hsub Hl Hf Herr.
  rewrite get_messages_run by done. simpl. rewrite Hids. simpl.
  assert (contains [a; b] (sub user) = true) as ->.
  { apply contains_elem_of. destruct Hsub as [->| ->]; set_solver. }
  simpl. by rewrite Herr, range_page.
Qed.

Lemma thread_spec a b d :
  thread a b d ≡ₚ filter (between a b) (messages d).
Proof.
  unfold thread. rewrite merge_sort_Permutation.
  erewrite list_filter_iff; [done|].
  intros m. apply conversation_filter_spec.
Qed.

Lemma thread_sym a b d : thread a b d = thread b a d.
Proof.
  unfold thread. f_equal. apply list_filter_iff. intros m.
  rewrite !conversation_filter_spec. tauto.
Qed.

#[global] Instance ts_le_trans : Transitive ts_le.
Proof. intros m1 m2 m3. unfold ts_le. lia. Qed.

Lemma distinct_timestamps_inj (l : list Message) (m1 m2 : Message) :
  NoDup (timestamp <$> l) -> m1 ∈ l -> m2 ∈ l ->
  timestamp m1 = timestamp m2 -> m1 = m2.
Proof.
  induction l as [|m l IH]; simpl; intros Hnodup H1 H2 Heq.
  { by apply elem_of_nil in H1. }
  apply NoDup_cons in Hnodup as [Hm Hnodup].
  apply elem_of_cons in H1 as [->|H1]; apply elem_of_cons in H2 as [->|H2].
  - done.
  - exfalso. apply Hm. rewrite Heq. by apply list_elem_of_fmap_2.
  - exfalso. apply Hm. rewrite <- Heq. by apply list_elem_of_fmap_2.
  - by apply IH.
Qed.

(** With distinct timestamps the ascending order of a set of messages is
    unique, whatever the store does with ties. *)
Lemma ascending_order_unique (l o1 o2 : list Message) :
  NoDup (timestamp <$> l) ->
  o1 ≡ₚ l -> o2 ≡ₚ l -> Sorted ts_le o1 -> Sorted ts_le o2 -> o1 = o2.
Proof.
  intros Hnodup H1 H2 Hs1 Hs2.
  apply (Sorted_unique_strong ts_le); [|done|done|by rewrite H1, H2].
  intros m1 m2 Hm1 Hm2 Hle Hge. rewrite H1 in Hm1. rewrite H2 in Hm2.
  apply (distinct_timestamps_inj l); [done|done|done|].
  unfold ts_le in *. lia.
Qed.

Lemma between_sym a b (l : list Message) :
  filter (between b a) l = filter (between a b) l.
Proof. apply list_filter_iff. intros m. unfold between. tauto. Qed.

(** X15.  A conversation has one content under both of its ids.  When the
    messages between [a] and [b] carry distinct timestamps, one id
    splitting into [a],[b] and the other into [b],[a] give the same caller
    with the same paging the same answer; and this does not rest on how
    the store orders rows: any two ascending orderings of the messages
    selected under the two ids are the same list. *)
Theorem conversation_id_order_irrelevant (e : Env) (w : World)
    (id1 id2 : string) (a b : string) (user : User)
    (limit offset : option Z) :
  split "_" id1 = [a; b] ->
  split "_" id2 = [b; a] ->
  NoDup (timestamp <$> filter (between a b) (messages (db w))) ->
  (Chat.get_messages id1 user limit offset e w).1
  = (Chat.get_messages id2 user limit offset e w).1 /\
  (forall o1 o2,
     o1 ≡ₚ filter (between a b) (messages (db w)) ->
     o2 ≡ₚ filter (between b a) (messages (db w)) ->
     Sorted ts_le o1 -> Sorted ts_le o2 -> o1 = o2).
Proof.
  intros H1 H2 Hdistinct.
  assert (forall o1 o2,
            o1 ≡ₚ filter (between a b) (messages (db w)) ->
            o2 ≡ₚ filter (between b a) (messages (db w)) ->
            Sorted ts_le o1 -> Sorted ts_le o2 -> o1 = o2) as Hunique.
  { intros o1 o2 Ho1 Ho2 Hs1 Hs2. rewrite between_sym in Ho2.
    by apply (ascending_order_unique
                (filter (between a b) (messages (db w)))). }
  split; [|exact Hunique].
  destruct (decide (limit_ok limit /\ offset_ok offset)) as [[Hl Hf]|Hpage].
  - rewrite !get_messages_run by done. simpl. rewrite H1, H2. simpl.
    assert (contains [b; a] (sub user) = contains [a; b] (sub user)) as ->.
    { unfold contains. simpl. rewrite !orb_false_r. apply orb_comm. }
    destruct (contains [a; b] (sub user)); simpl; [|done].
    destruct (store_error e); simpl; [done|].
    rewrite (Hunique (thread a b (db w)) (thread b a (db w))); [done| | | |].
    + apply thread_spec.
    + apply thread_spec.
    + apply Sorted_merge_sort, _.
    + apply Sorted_merge_sort, _.
  - unfold Chat.get_messages, bind.
    destruct (decide (limit_ok limit)) as [Hl|Hl].
    + rewrite (Query_limit_ok _ _ _ Hl).
      by rewrite !Query_offset_bad by tauto.
    + by rewrite !(Query_limit_bad _ _ _ Hl).
Qed.

Lemma conversation_id_order_irrelevant_witness :
  (Chat.get_messages "u1_u2" SampleChat.en_user None None SampleChat.env_down
     SampleChat.world).1
  = (Chat.get_messages "u2_u1" SampleChat.en_user None None
       SampleChat.env_down SampleChat.world).1.
Proof.
  apply (conversation_id_order_irrelevant SampleChat.env_down
           SampleChat.world "u1_u2" "u2_u1" "u1" "u2");
    [reflexivity|reflexivity|].
  apply (bool_decide_unpack _). vm_compute. exact I.
Defined.

(** X16.  A caller is only ever served its own correspondence: every
    message in an answer of [get_messages] is a stored message that the
    caller sent or received, and the answer is never longer than the
    limit, hence never longer than 100. *)
Theorem served_messages_involve_caller (e : Env) (w : World)
    (conversation_id : string) (user : User) (limit offset : option Z)
    (page : list Message) :
  (Chat.get_messages conversation_id user limit offset e w).1 = inr page ->
  (forall m, m ∈ page ->
     m ∈ messages (db w) /\
     (sender_id m = sub user \/ receiver_id m = sub user)) /\
  (length page <= Z.to_nat (default 50%Z limit) <= 100)%nat.
Proof.
  intros Hrun.
  apply get_messages_success_inv in Hrun
    as (Hl & Hf & _ & a & b & _ & Hsub & ->).
  split.
  - intros m Hm. apply subseteq_take, subseteq_drop in Hm.
    rewrite thread_spec in Hm.
    apply list_elem_of_filter in Hm as [Hpair Hm]. split; [done|].
    unfold between in Hpair. destruct Hsub as [-> | ->]; tauto.
  - split; [rewrite length_take; apply Nat.le_min_l|].
    destruct limit as [v|]; unfold limit_ok in Hl; simpl; lia.
Qed.

Lemma served_messages_involve_caller_witness :
  sender_id (mkMessage 1 "u1" "u2" "hello" (Some "hola") 100) = "u1" \/
  receiver_id (mkMessage 1 "u1" "u2" "hello" (Some "hola") 100) = "u1".
Proof.
  destruct (served_messages_involve_caller SampleChat.env_down
              SampleChat.world "u1_u2" SampleChat.en_user (Some 1%Z)
              (Some 1%Z) [mkMessage 1 "u1" "u2" "hello" (Some "hola") 100])
    as [Hown _].
  - vm_compute. reflexivity.
  - apply (Hown (mkMessage 1 "u1" "u2" "hello" (Some "hola") 100)).
    by left.
Defined.

(** X17.  Pages tile the conversation.  When the messages between the
    two participants carry distinct timestamps, for an authorized caller
    the page of [l1] messages at [offset] followed by the page of [l2]
    messages at [offset + l1] is the page of [l1 + l2] messages at
    [offset] (all three limits within the allowed range); and this does
    not rest on how the store orders rows: the same holds for pages cut
    from any three ascending orderings of those messages, one per query. *)
Theorem consecutive_pages_concatenate (e : Env) (w : World)
    (conversation_id : string) (user : User) (a b : string)
    (offset l1 l2 : Z) :
  split "_" conversation_id = [a; b] ->
  sub user = a \/ sub user = b ->
  store_error e = false ->
  (0 <= offset)%Z -> (1 <= l1)%Z -> (1 <= l2)%Z -> (l1 + l2 <= 100)%Z ->
  NoDup (timestamp <$> filter (between a b) (messages (db w))) ->
  (exists p1 p2,
     (Chat.get_messages conversation_id user (Some l1) (Some offset) e w).1
       = inr p1 /\
     (Chat.get_messages conversation_id user (Some l2)
        (Some (offset + l1)%Z) e w).1 = inr p2 /\
     (Chat.get_messages conversation_id user (Some (l1 + l2)%Z)
        (Some offset) e w).1 = inr (p1 ++ p2)%list) /\
  (forall o1 o2 o3,
     o1 ≡ₚ filter (between a b) (messages (db w)) ->
     o2 ≡ₚ filter (between a b) (messages (db w)) ->
     o3 ≡ₚ filter (between a b) (messages (db w)) ->
     Sorted ts_le o1 -> Sorted ts_le o2 -> Sorted ts_le o3 ->
     (take (Z.to_nat l1) (drop (Z.to_nat offset) o1)
        ++ take (Z.to_nat l2) (drop (Z.to_nat (offset + l1)) o2))%list
     = take (Z.to_nat (l1 + l2)) (drop (Z.to_nat offset) o3)).
Proof.
  intros Hids Hsub Herr Hoff H1 H2 H12 Hdistinct.
  assert (forall o : list Message,
            (take (Z.to_nat l1) (drop (Z.to_nat offset) o)
               ++ take (Z.to_nat l2) (drop (Z.to_nat (offset + l1)) o))%list
            = take (Z.to_nat (l1 + l2)) (drop (Z.to_nat offset) o)) as Htile.
  { intros o.
    rewrite (Z2Nat.inj_add offset l1), (Z2Nat.inj_add l1 l2) by lia.
    by rewrite <- drop_drop, take_take_drop. }
  split.
  - eexists _, _.
    rewrite !(get_messages_served e w conversation_id user _ _ a b)
      by (done || simpl; lia).
    split; [reflexivity|]. split; [reflexivity|]. simpl. f_equal.
    symmetry. apply Htile.
  - intros o1 o2 o3 Ho1 Ho2 Ho3 Hs1 Hs2 Hs3.
    rewrite (ascending_order_unique _ o1 o3 Hdistinct Ho1 Ho3 Hs1 Hs3).
    rewrite (ascending_order_unique _ o2 o3 Hdistinct Ho2 Ho3 Hs2 Hs3).
    apply Htile.
Qed.

Lemma consecutive_pages_concatenate_witness :
  exists p1 p2,
    (Chat.get_messages "u1_u2" SampleChat.en_user (Some 1%Z) (Some 0%Z)
       SampleChat.env_down SampleChat.world).1 = inr p1 /\
    (Chat.get_messages "u1_u2" SampleChat.en_user (Some 1%Z) (Some 1%Z)
       SampleChat.env_down SampleChat.world).1 = inr p2 /\
    (Chat.get_messages "u1_u2" SampleChat.en_user (Some 2%Z) (Some 0%Z)
       SampleChat.env_down SampleChat.world).1 = inr (p1 ++ p2)%list.
Proof.
  apply (consecutive_pages_concatenate SampleChat.env_down SampleChat.world
           "u1_u2" SampleChat.en_user "u1" "u2" 0 1 1);
    [reflexivity|by left|reflexivity|lia|lia|lia|lia|].
  apply (bool_decide_unpack _). vm_compute. exact I.
Defined.

(** X18.  The ends of the conversation: an offset at or past the number of
    messages between the two participants gives the empty list, and a first
    page whose limit covers that number holds every one of them. *)
Theorem paging_bounds (e : Env) (w : World) (conversation_id : string)
    (user : User) (a b : string) (limit offset : option Z) :
  split "_" conversation_id = [a; b] ->
  sub user = a \/ sub user = b ->
  limit_ok limit -> offset_ok offset ->
  store_error e = false ->
  let total := length (filter (between a b) (messages (db w))) in
  ((total <= Z.to_nat (default 0%Z offset))%nat ->
     (Chat.get_messages conversation_id user limit offset e w).1 = inr []) /\
  (default 0%Z offset = 0%Z ->
   (total <= Z.to_nat (default 50%Z limit))%nat ->
     exists page,
       (Chat.get_messages conversation_id user limit offset e w).1
         = inr page /\
       page ≡ₚ filter (between a b) (messages (db w))).
Proof.
  intros Hids Hsub Hl Hf Herr total.
  rewrite (get_messages_served e w conversation_id user _ _ a b) by done.
  assert (length (thread a b (db w)) = total) as Hlen
    by (by rewrite thread_spec).
  split.
  - intros Hpast. by rewrite drop_ge, take_nil by lia.
  - intros -> Hfits. eexists. split; [reflexivity|].
    simpl. rewrite drop_0, take_ge by lia. apply thread_spec.
Qed.

Lemma paging_bounds_witness :
  (Chat.get_messages "u1_u2" SampleChat.en_user None (Some 2%Z)
     SampleChat.env_down SampleChat.world).1 = inr [].
Proof.
  destruct (paging_bounds SampleChat.env_down SampleChat.world "u1_u2"
              SampleChat.en_user "u1" "u2" None (Some 2%Z))
    as [Hpast _]; [reflexivity|by left|exact I|simpl; lia|reflexivity|].
  apply Hpast. vm_compute. lia.
Defined.

(** X19.  Only an id with exactly one "_" names a conversation: with valid
    paging, every other [conversation_id] is answered with 400 before the
    caller is looked at.  So the conversation of two participants is out of
    reach as soon as one of their ids contains "_". *)
Theorem one_underscore_only (e : Env) (w : World) (conversation_id : string)
    (user : User) (limit offset : option Z) :
  limit_ok limit -> offset_ok offset ->
  (count_char "_" conversation_id <> 1%nat ->
     Chat.get_messages conversation_id user limit offset e w
     = (inl (BadRequest "Invalid conversation_id"), w)) /\
  (forall a b,
     conversation_id = conversation_id_of a b ->
     has_char "_" a = true \/ has_char "_" b = true ->
     Chat.get_messages conversation_id user limit offset e w
     = (inl (BadRequest "Invalid conversation_id"), w)).
Proof.
  intros Hl Hf.
  assert (count_char "_" conversation_id <> 1%nat ->
          Chat.get_messages conversation_id user limit offset e w
          = (inl (BadRequest "Invalid conversation_id"), w)) as Hcount.
  { intros Hn. rewrite get_messages_run by done. simpl.
    rewrite split_length.
    destruct (Nat.eqb_spec (S (count_char "_" conversation_id)) 2);
      [lia|done]. }
  split; [exact Hcount|].
  intros a b -> Hunder. apply Hcount.
  unfold conversation_id_of. rewrite count_char_app. simpl.
  rewrite !has_char_count in Hunder. lia.
Qed.

Lemma one_underscore_only_witness :
  Chat.get_messages "team_a_u2" (mkUser "team_a" (Some "buyer")) None None
    SampleChat.env_down SampleChat.world
  = (inl (BadRequest "Invalid conversation_id"), SampleChat.world).
Proof.
  destruct (one_underscore_only SampleChat.env_down SampleChat.world
              "team_a_u2" (mkUser "team_a" (Some "buyer")) None None I I)
    as [_ Hids].
  apply (Hids "team_a" "u2"); [reflexivity|by left].
Defined.

(** X20.  Paging is validated first: [get_messages] is answered with a
    request validation error exactly when [limit] is given outside
    [1,100] or [offset] is given below 0, whatever the conversation id and
    the caller are, and then no gateway call is made. *)
Theorem paging_validated_first (e : Env) (w : World)
    (conversation_id : string) (user : User) (limit offset : option Z) :
  (exists name,
     (Chat.get_messages conversation_id user limit offset e w).1
     = inl (RequestValidationError name))
  <-> ~ (limit_ok limit /\ offset_ok offset).
Proof.
  split.
  - intros [name Hrun] [Hl Hf]. revert Hrun.
    rewrite get_messages_run by done. simpl.
    destruct (negb _); [done|]. destruct (negb _); [done|].
    by destruct (store_error e).
  - intros Hbad.
    destruct (get_messages_invalid_page e w conversation_id user limit offset
                Hbad) as [name ->].
    by exists name.
Qed.

Lemma paging_validated_first_witness :
  exists name,
    (Chat.get_messages "u2_u3" SampleChat.en_user (Some 101%Z) None
       SampleChat.env_down SampleChat.world).1
    = inl (RequestValidationError name).
Proof.
  apply (paging_validated_first SampleChat.env_down SampleChat.world "u2_u3"
           SampleChat.en_user (Some 101%Z) None).
  simpl. lia.
Defined.

(** *** Sending: when no translation is asked for, and reading back *)

(** X21.  A missing profile counts as language "en".  No translation is
    requested, and none is stored, when the caller writes to itself, when
    neither party has a profile, or when one party has no profile and the
    other prefers "en". *)
Theorem no_translation_by_default (e : Env) (w : World)
    (receiver text : string) (user : User) :
  receiver = sub user \/
  (Chat.lang_of (profiles (db w) !! sub user) = Some "en" /\
   Chat.lang_of (profiles (db w) !! receiver) = Some "en") ->
  let out := Chat.send_message receiver text user e w in
  calls out.2
  = (calls w ++ [ev_select_profile (sub user); ev_select_profile receiver;
                 ev_insert_message (sub user) receiver text None])%list /\
  (store_error e = false ->
     messages (db out.2)
     = (messages (db w)
          ++ [mkMessage (next_msg_id (messages (db w))) (sub user) receiver
                text None (store_now e)])%list).
Proof.
  intros Hsame out. subst out. rewrite send_message_run.
  assert (sender_lang w user = receiver_lang w receiver) as Heq.
  { unfold sender_lang, receiver_lang.
    destruct Hsame as [->|[-> ->]]; done. }
  assert (translation e w receiver text user = None) as Htr.
  { unfold translation. by rewrite bool_decide_eq_false_2 by tauto. }
  assert (send_calls e w receiver text user
          = [ev_select_profile (sub user); ev_select_profile receiver;
             ev_insert_message (sub user) receiver text None]) as Hcalls.
  { unfold send_calls. rewrite Htr.
    by rewrite bool_decide_eq_false_2 by tauto. }
  rewrite Hcalls, Htr. split.
  - by destruct (store_error e).
  - by intros ->.
Qed.

Lemma no_translation_by_default_witness :
  calls (Chat.send_message "nobody" "hi" (mkUser "stranger" None)
           SampleChat.env_down SampleChat.world).2
  = [ev_select_profile "stranger"; ev_select_profile "nobody";
     ev_insert_message "stranger" "nobody" "hi" None].
Proof.
  destruct (no_translation_by_default SampleChat.env_down SampleChat.world
              "nobody" "hi" (mkUser "stranger" None)) as [Hcalls _].
  - right. split; reflexivity.
  - exact Hcalls.
Defined.

(** X22.  What is sent can be read back: after a successful
    [send_message] between two participants whose ids contain no "_",
    either of them listing the conversation with default paging is served,
    and the answer contains the new message as long as the conversation
    held fewer than 50 messages before. *)
Theorem sent_message_is_listed (e e' : Env) (w : World)
    (receiver text : string) (user reader : User) :
  store_error e = false -> store_error e' = false ->
  has_char "_" (sub user) = false -> has_char "_" receiver = false ->
  sub reader = sub user \/ sub reader = receiver ->
  let w' := (Chat.send_message receiver text user e w).2 in
  exists page,
    (Chat.get_messages (conversation_id_of (sub user) receiver) reader
       None None e' w').1 = inr page /\
    ((length (filter (between (sub user) receiver) (messages (db w))) < 50)%nat
     -> sent_message e w receiver text user ∈ page).
Proof.
  intros Herr Herr' Hs Hr Hreader w'.
  assert (messages (db w')
          = (messages (db w) ++ [sent_message e w receiver text user])%list)
    as Hstored.
  { subst w'. by rewrite send_message_run, Herr. }
  rewrite (get_messages_served e' w' _ reader None None (sub user) receiver)
    by (done || by apply split_joined).
  eexists. split; [reflexivity|]. intros Hroom. simpl.
  assert (thread (sub user) receiver (db w')
          ≡ₚ (filter (between (sub user) receiver) (messages (db w))
                ++ [sent_message e w receiver text user])%list) as Hthread.
  { rewrite thread_spec, Hstored, filter_app, filter_cons, filter_nil.
    rewrite decide_True; [done|]. by left. }
  rewrite drop_0, take_ge.
  - rewrite Hthread. apply elem_of_app. right. by left.
  - rewrite Hthread, length_app. simpl. lia.
Qed.

Lemma sent_message_is_listed_witness :
  exists page,
    (Chat.get_messages "u1_u2" (mkUser "u2" (Some "seller")) None None
       SampleChat.env_down
       (Chat.send_message "u2" "bye" SampleChat.en_user SampleChat.env_down
          SampleChat.world).2).1 = inr page /\
    mkMessage 5 "u1" "u2" "bye" None 120 ∈ page.
Proof.
  destruct (sent_message_is_listed SampleChat.env_down SampleChat.env_down
              SampleChat.world "u2" "bye" SampleChat.en_user
              (mkUser "u2" (Some "seller")))
    as (page & Hpage & Hin);
    [reflexivity|reflexivity|reflexivity|reflexivity|by right|].
  exists page. split; [exact Hpage|]. apply Hin. vm_compute. lia.
Defined.

(** *** Updating and listing together *)

(** X23.  An accepted update is what both parties see next: listing the
    seller's orders as that seller, and the buyer's orders as that buyer,
    through either mount, returns the updated order with its new status
    and with the time of the update recorded under that status. *)
Theorem updated_order_is_listed (m m' : Mount) (e e' : Env) (w w' : World)
    (id : Z) (o : OrderRow) (new_status : string) (user reader : User)
    (body : StatusUpdated) :
  update_order_status_at m id new_status user e w = (inr body, w') ->
  orders (db w) !! id = Some o ->
  (reader = user \/
   (role reader = Some "buyer" /\ sub reader = buyer_id o)) ->
  exists l x,
    (get_orders_at m' (sub reader) reader e' w').1 = inr l /\
    x ∈ l /\ order_id x = id /\
    status (order_row x) = new_status /\
    stamps (order_row x) !! new_status = Some (utcnow_isoformat e).
Proof.
  intros Hrun Ho Hreader.
  apply update_success_inv in Hrun
    as (o' & i & j & Hrole & Ho' & Hown & _ & _ & _ & _ & _ & Hw).
  rewrite Ho in Ho'. injection Ho' as <-.
  set (row := set_status new_status (stamped e o new_status) o).
  assert (orders (db w') !! id = Some row) as Hrow.
  { subst w'. rewrite (after_update_orders _ _ _ _ _ _ Ho). by case_decide. }
  set (x := mkOrder id row
              (filter (fun it => item_order_id it = id) (order_items (db w')))).
  assert (stamps row !! new_status = Some (utcnow_isoformat e)) as Hstamp.
  { unfold stamps. simpl. rewrite stamped_lookup. by case_decide. }
  destruct Hreader as [->|[Hbuyer Hsub]].
  - exists (listing col_seller_id (sub user) (db w')), x.
    split; [|split; [|done]].
    + apply get_orders_listed.
      * apply get_orders_gate. by left.
      * right. rewrite role_is_false, role_is_true, Hrole.
        repeat split; congruence.
    + apply listing_spec. simpl. done.
  - exists (listing col_buyer_id (sub reader) (db w')), x.
    split; [|split; [|done]].
    + apply get_orders_listed.
      * apply get_orders_gate. by left.
      * left. by rewrite role_is_true.
    + apply listing_spec. simpl. done.
Qed.

Lemma updated_order_is_listed_witness :
  exists l x,
    (get_orders_at order_tracking_py "b1" Sample.buyer (Sample.env false)
       (update_order_status_at main_py 7 "Accepted" Sample.seller
          (Sample.env false) (Sample.store "Placed" None)).2).1 = inr l /\
    x ∈ l /\ order_id x = 7%Z /\ status (order_row x) = "Accepted".
Proof.
  destruct (updated_order_is_listed main_py order_tracking_py
              (Sample.env false) (Sample.env false)
              (Sample.store "Placed" None)
              (update_order_status_at main_py 7 "Accepted" Sample.seller
                 (Sample.env false) (Sample.store "Placed" None)).2
              7%Z (Sample.order "Placed" None) "Accepted" Sample.seller
              Sample.buyer
              (mkStatusUpdated "Order status updated" 7 "Accepted"))
    as (l & x & Hl & Hx & Hid & Hst & _).
  - vm_compute. reflexivity.
  - reflexivity.
  - right. split; reflexivity.
  - exists l, x. repeat split; assumption.
Defined.
